(** * ClickUp MCP server: the JSON-RPC dispatcher, the tool catalog and the
      tool executor of [clickup_mcp_server.py], embedded in Rocq.

    Python values that travel through the server are decoded JSON documents;
    dictionaries are finite maps with string keys.  The remote ClickUp API is
    an arbitrary deterministic function of the calls issued so far; every
    remote call is appended to a log.  The one object the server mutates in
    place, the [arguments] dictionary of a tool call, lives in a small heap
    and is passed by reference. *)

From stdpp Require Import gmap strings list fin_maps pretty.
From Stdlib Require Import ZArith Ascii.

#[local] Open Scope Z_scope.
#[local] Open Scope string_scope.
#[local] Open Scope list_scope.

(** ** Decoded JSON values *)

#[local] Unset Elimination Schemes.
Inductive json : Type :=
| JNull
| JBool (b : bool)
| JInt (z : Z)
| JFloat (bits : Z)   (* an IEEE-754 binary64 value, by its bit pattern *)
| JStr (s : string)
| JList (l : list json)
| JDict (d : gmap string json).
#[local] Set Elimination Schemes.

(** A dictionary literal [{k1: v1, ..., kn: vn}] with distinct keys. *)
Definition dict_lit (kvs : list (string * json)) : gmap string json :=
  list_to_map kvs.

(** ** Exceptions

    Every exception the server can meet is a subclass of [Exception]; what the
    dispatcher observes of one is its class and [str(e)]. *)

Inductive exn_class :=
| ValueError | KeyError | IndexError | TypeError | AttributeError
| RequestException.

Record exn := Exn { exn_class_of : exn_class; exn_str : string }.

Definition except (A : Type) : Type := exn + A.

(** ** Python primitives on decoded values *)

Definition type_name (v : json) : string :=
  match v with
  | JNull => "NoneType"
  | JBool _ => "bool"
  | JInt _ => "int"
  | JFloat _ => "float"
  | JStr _ => "str"
  | JList _ => "list"
  | JDict _ => "dict"
  end.

Definition no_attribute {A} (v : json) (attr : string) : except A :=
  inl (Exn AttributeError
         ("'" +:+ type_name v +:+ "' object has no attribute '" +:+ attr +:+ "'")).

Definition not_subscriptable {A} (v : json) : except A :=
  inl (Exn TypeError ("'" +:+ type_name v +:+ "' object is not subscriptable")).

Definition not_iterable {A} (v : json) : except A :=
  inl (Exn TypeError ("'" +:+ type_name v +:+ "' object is not iterable")).

(** Truth value of [v] in a condition or on the left of [or]. *)
Definition py_truthy (v : json) : bool :=
  match v with
  | JNull => false
  | JBool b => b
  | JInt z => negb (z =? 0)%Z
  | JFloat bits => negb (bits mod 2 ^ 63 =? 0)%Z
  | JStr s => negb (String.eqb s "")
  | JList l => match l with [] => false | _ => true end
  | JDict d => match map_to_list d with [] => false | _ => true end
  end.

(** [s1 in s2] on two strings. *)
Fixpoint is_substring (p s : string) : bool :=
  String.prefix p s
  || match s with
     | EmptyString => false
     | String _ s' => is_substring p s'
     end.

(** A string is held as the UTF-8 encoding of the Python [str]; a byte
    [10xxxxxx] continues the character begun before it. *)
Definition is_continuation_byte (c : ascii) : bool :=
  let n := nat_of_ascii c in
  (128 <=? n)%nat && (n <? 192)%nat.

(** The characters (code points) of a string, each as its own string. *)
Fixpoint code_points (s : string) : list string :=
  match s with
  | EmptyString => []
  | String c s' =>
      let continued :=
        match s' with
        | String c' _ => is_continuation_byte c'
        | EmptyString => false
        end in
      match code_points s' with
      | chunk :: rest =>
          if continued then String c chunk :: rest
          else String c EmptyString :: chunk :: rest
      | [] => [String c EmptyString]
      end
  end.

(** The characters of a string, each as a one-character string. *)
Definition str_chars (s : string) : list json := JStr <$> code_points s.

(** [iter(v)], forced: the elements a [for] loop over [v] visits.  A list
    gives its elements and a string its characters, in order.  A dictionary
    gives its keys; the finite map does not record the order in which the keys
    were inserted, which is the order Python visits them in, so what is proved
    of a loop over the keys of a dictionary is proved only where that order
    cannot be seen. *)
Definition py_iter (v : json) : except (list json) :=
  match v with
  | JList l => inr l
  | JDict d => inr (JStr <$> (map_to_list d).*1)
  | JStr s => inr (str_chars s)
  | _ => not_iterable v
  end.

(** [v.get(k)] and [v.get(k, dflt)]. *)
Definition py_get (v : json) (k : string) (dflt : json) : except json :=
  match v with
  | JDict d => inr (default dflt (d !! k))
  | _ => no_attribute v "get"
  end.

(** [k in v] for a string [k]. *)
Definition py_str_in (k : string) (v : json) : except bool :=
  match v with
  | JDict d => inr (bool_decide (is_Some (d !! k)))
  | JList l =>
      inr (existsb (fun x => match x with JStr s => String.eqb s k | _ => false end) l)
  | JStr s => inr (is_substring k s)
  | _ => inl (Exn TypeError
                ("argument of type '" +:+ type_name v +:+ "' is not iterable"))
  end.

(** [v[0]]. *)
Definition py_index0 (repr : json -> string) (v : json) : except json :=
  match v with
  | JList l =>
      match l with
      | x :: _ => inr x
      | [] => inl (Exn IndexError "list index out of range")
      end
  | JStr s =>
      match code_points s with
      | c :: _ => inr (JStr c)
      | [] => inl (Exn IndexError "string index out of range")
      end
  | JDict _ => inl (Exn KeyError (repr (JInt 0)))
  | _ => not_subscriptable v
  end.

(** [v[k]] for a string [k]. *)
Definition py_item (repr : json -> string) (v : json) (k : string) : except json :=
  match v with
  | JDict d =>
      match d !! k with
      | Some x => inr x
      | None => inl (Exn KeyError (repr (JStr k)))
      end
  | JList _ =>
      inl (Exn TypeError "list indices must be integers or slices, not str")
  | JStr _ =>
      inl (Exn TypeError "string indices must be integers, not 'str'")
  | _ => not_subscriptable v
  end.

(** [str(v)], as an f-string field formats it: a string is itself, anything
    else is its [repr]. *)
Definition py_str (repr : json -> string) (v : json) : string :=
  match v with
  | JStr s => s
  | _ => repr v
  end.

(** [v.lower()]. *)
Definition py_lower (lower : string -> string) (v : json) : except string :=
  match v with
  | JStr s => inr (lower s)
  | _ => no_attribute v "lower"
  end.

(** ** The remote API and the machine state *)

Inductive verb := GET | POST | PUT | DELETE.

Record call := Call {
  call_verb : verb;
  call_endpoint : string;
  call_body : option json
}.

(** The heap holds the objects passed by reference; the log holds the remote
    calls issued so far, oldest first. *)
Record state := State {
  heap : list json;
  log : list call
}.

Definition M (A : Type) : Type := state -> except A * state.

Definition ret {A} (a : A) : M A := fun st => (inr a, st).

Definition raise {A} (e : exn) : M A := fun st => (inl e, st).

Definition bind {A B} (m : M A) (k : A -> M B) : M B :=
  fun st =>
    match m st with
    | (inr a, st') => k a st'
    | (inl e, st') => (inl e, st')
    end.

Definition lift {A} (r : except A) : M A := fun st => (r, st).

(** [try: body / except Exception as e: handler(e)]. *)
Definition try_except {A} (body : M A) (handler : exn -> M A) : M A :=
  fun st =>
    match body st with
    | (inr a, st') => (inr a, st')
    | (inl e, st') => handler e st'
    end.

Notation "'do' x <- m ; k" := (bind m (fun x => k))
  (at level 10, x name, m at level 100, k at level 200,
   format "'[v' 'do'  x  <-  m ; '/' k ']'").

(** [self.base_url] and the URL [f"{self.base_url}/{endpoint}"] of a call. *)
Definition base_url : string := "https://api.clickup.com/api/v2".

Definition call_url (c : call) : string := base_url +:+ "/" +:+ call_endpoint c.

(** A [for] loop that threads its accumulator. *)
Fixpoint for_each {A B} (body : B -> A -> M B) (xs : list A) (acc : B) : M B :=
  match xs with
  | [] => ret acc
  | x :: xs' => do acc' <- body acc x; for_each body xs' acc'
  end.

(** A reference into the heap. *)
Definition ref := nat.

Definition alloc (v : json) : M ref :=
  fun st => (inr (length (heap st)), State (heap st ++ [v])%list (log st)).

Definition deref (r : ref) : M json :=
  fun st => (inr (default JNull (heap st !! r)), st).

Definition store (r : ref) (v : json) : M unit :=
  fun st => (inr tt, State (<[r := v]> (heap st)) (log st)).

(** [r.pop(k)] on the object behind [r]: the dictionary is updated in place. *)
Definition py_pop (repr : json -> string) (r : ref) (k : string) : M json :=
  do v <- deref r;
  match v with
  | JDict d =>
      match d !! k with
      | Some x => do _ <- store r (JDict (delete k d)); ret x
      | None => raise (Exn KeyError (repr (JStr k)))
      end
  | JList _ =>
      raise (Exn TypeError "'str' object cannot be interpreted as an integer")
  | _ => lift (no_attribute v "pop")
  end.

(** [v == s] for a string literal [s]. *)
Definition py_eq_str (v : json) (s : string) : bool :=
  match v with
  | JStr s' => String.eqb s' s
  | _ => false
  end.

(** ** Models *)

Module MCPRequest.
Record t := mk {
  jsonrpc : string;
  id : option Z;
  method : string;
  params : option (gmap string json)
}.
End MCPRequest.

Module MCPResponse.
Record t := mk {
  jsonrpc : string;
  id : option Z;
  result : option json;
  error : option (gmap string json)
}.

(** [response.dict()], the document the endpoint's return value is served
    as: every declared field is a key, and a field left at [None] is a key
    whose value is [None]. *)
Definition dict (response : t) : gmap string json :=
  dict_lit [("jsonrpc", JStr (jsonrpc response));
            ("id", from_option JInt JNull (id response));
            ("result", default JNull (result response));
            ("error", from_option JDict JNull (error response))].
End MCPResponse.


Module ToolInfo.
Record t := mk {
  name : string;
  description : string;
  inputSchema : gmap string json
}.

(** [tool.dict()]. *)
Definition dict (tool : t) : json :=
  JDict (dict_lit [("name", JStr (name tool));
                   ("description", JStr (description tool));
                   ("inputSchema", JDict (inputSchema tool))]).
End ToolInfo.

(** ** The tool catalog *)

Definition string_prop (descr : string) : json :=
  JDict (dict_lit [("type", JStr "string"); ("description", JStr descr)]).

Definition integer_prop (descr : string) : json :=
  JDict (dict_lit [("type", JStr "integer"); ("description", JStr descr)]).

Definition object_schema (props : list (string * json)) (required : list string)
  : gmap string json :=
  dict_lit [("type", JStr "object");
            ("properties", JDict (dict_lit props));
            ("required", JList (JStr <$> required))].

Definition open_schema (props : list (string * json)) : gmap string json :=
  dict_lit [("type", JStr "object"); ("properties", JDict (dict_lit props))].

Definition get_tools_list : list ToolInfo.t :=
  [ ToolInfo.mk "search_workspace"
      "Search for tasks, lists, folders, and docs across the workspace"
      (object_schema [("query", string_prop "Search query")] ["query"]);
    ToolInfo.mk "get_workspace_hierarchy"
      "Get the complete workspace structure with spaces, folders, and lists"
      (open_schema []);
    ToolInfo.mk "get_workspace_tasks"
      "Get all tasks in the workspace with optional filters"
      (open_schema [("space_id", string_prop "Filter by space ID");
                    ("list_id", string_prop "Filter by list ID");
                    ("assignee", string_prop "Filter by assignee ID")]);
    ToolInfo.mk "create_task"
      "Create a new task in a list"
      (object_schema
         [("list_id", string_prop "List ID where task will be created");
          ("name", string_prop "Task name");
          ("description", string_prop "Task description");
          ("status", string_prop "Task status (e.g., 'to do', 'in progress')");
          ("priority", integer_prop "Priority level (1-4)")]
         ["list_id"; "name"]);
    ToolInfo.mk "get_task"
      "Get detailed information about a specific task"
      (object_schema [("task_id", string_prop "Task ID")] ["task_id"]);
    ToolInfo.mk "update_task"
      "Update an existing task"
      (object_schema
         [("task_id", string_prop "Task ID");
          ("name", string_prop "New task name");
          ("description", string_prop "New description");
          ("status", string_prop "New status")]
         ["task_id"]);
    ToolInfo.mk "create_task_comment"
      "Add a comment to a task"
      (object_schema
         [("task_id", string_prop "Task ID");
          ("comment_text", string_prop "Comment text")]
         ["task_id"; "comment_text"]);
    ToolInfo.mk "get_task_comments"
      "Get all comments from a task"
      (object_schema [("task_id", string_prop "Task ID")] ["task_id"]);
    ToolInfo.mk "get_workspace_members"
      "Get all members in the workspace"
      (open_schema []);
    ToolInfo.mk "create_list"
      "Create a new list in a space"
      (object_schema
         [("space_id", string_prop "Space ID");
          ("name", string_prop "List name")]
         ["space_id"; "name"]) ].

Definition tool_names : list string := ToolInfo.name <$> get_tools_list.

(** ** The API client, the tool executor and the dispatcher *)

Section Server.

(** The remote service: its answer to a call, given the calls before it.
    An answer is the decoded JSON body, or the exception [requests] raises
    (connection failure, [raise_for_status], undecodable body). *)
Variable remote : list call -> call -> except json.

(** Python's [repr], [str.lower] and [json.dumps(_, indent=2)]. *)
Variable py_repr : json -> string.
Variable str_lower : string -> string.
Variable json_dumps : json -> string.

(** *** ClickUpAPI: every request goes to [base_url/endpoint]; a call is
    logged by its endpoint. *)

Definition api_request (v : verb) (endpoint : string) (body : option json)
  : M json :=
  fun st =>
    let c := Call v endpoint body in
    (remote (log st) c, State (heap st) (log st ++ [c])%list).

Definition api_get (endpoint : string) : M json :=
  api_request GET endpoint None.

Definition api_post (endpoint : string) (data : json) : M json :=
  api_request POST endpoint (Some data).

Definition api_put (endpoint : string) (data : json) : M json :=
  api_request PUT endpoint (Some data).

Definition api_delete (endpoint : string) : M json :=
  api_request DELETE endpoint None.

(** *** ClickUpMCPTools *)

(** [teams['teams'][0]]. *)
Definition first_team (teams : json) : except json :=
  match py_item py_repr teams "teams" with
  | inr ts => py_index0 py_repr ts
  | inl e => inl e
  end.

(** [query.lower() in doc['name'].lower()]. *)
Definition name_matches (query doc : json) : except bool :=
  match py_lower str_lower query with
  | inl e => inl e
  | inr q =>
      match py_item py_repr doc "name" with
      | inl e => inl e
      | inr nm =>
          match py_lower str_lower nm with
          | inl e => inl e
          | inr n => inr (is_substring q n)
          end
      end
  end.

(** The innermost loop of the search: [for task in tasks['tasks']]. *)
Definition search_task_step (query : json) (found_tasks : list json) (task : json)
  : M (list json) :=
  do hit <- lift (name_matches query task);
  ret (if hit then (found_tasks ++ [task])%list else found_tasks).

(** The body of [for lst in lists['lists']]; [found] is the pair of
    [results['lists']] and [results['tasks']]. *)
Definition search_list_step (query : json) (found : list json * list json)
  (lst : json) : M (list json * list json) :=
  do hit <- lift (name_matches query lst);
  let found_lists := if hit then (found.1 ++ [lst])%list else found.1 in
  do list_id <- lift (py_item py_repr lst "id");
  do tasks <- api_get ("list/" +:+ py_str py_repr list_id +:+ "/task?archived=false");
  do tasks_v <- lift (py_item py_repr tasks "tasks");
  do task_seq <- lift (py_iter tasks_v);
  do found_tasks <- for_each (search_task_step query) task_seq found.2;
  ret (found_lists, found_tasks).

(** The body of [for space in spaces['spaces']]. *)
Definition search_space_step (query : json) (found : list json * list json)
  (space : json) : M (list json * list json) :=
  do space_id <- lift (py_item py_repr space "id");
  do lists <- api_get ("space/" +:+ py_str py_repr space_id +:+ "/list?archived=false");
  do lists_v <- lift (py_item py_repr lists "lists");
  do list_seq <- lift (py_iter lists_v);
  for_each (search_list_step query) list_seq found.

Definition search_workspace (query : json) : M json :=
  do teams <- api_get "team";
  do team <- lift (first_team teams);
  do team_id <- lift (py_item py_repr team "id");
  do spaces <- api_get ("team/" +:+ py_str py_repr team_id +:+ "/space?archived=false");
  do all_spaces <- lift (py_item py_repr spaces "spaces");
  do space_seq <- lift (py_iter all_spaces);
  do found <- for_each (search_space_step query) space_seq ([], []);
  ret (JDict (dict_lit [("tasks", JList found.2);
                        ("lists", JList found.1);
                        ("spaces", all_spaces)])).

Definition get_workspace_hierarchy : M json :=
  do teams <- api_get "team";
  do team <- lift (first_team teams);
  do team_id <- lift (py_item py_repr team "id");
  do spaces <- api_get ("team/" +:+ py_str py_repr team_id +:+ "/space?archived=false");
  do workspace <- lift (first_team teams);
  do all_spaces <- lift (py_item py_repr spaces "spaces");
  do space_seq <- lift (py_iter all_spaces);
  do entries <-
    for_each
      (fun entries space =>
         do space_id <- lift (py_item py_repr space "id");
         do space_name <- lift (py_item py_repr space "name");
         do space_id' <- lift (py_item py_repr space "id");
         do lists <- api_get ("space/" +:+ py_str py_repr space_id' +:+ "/list?archived=false");
         do lists_v <- lift (py_item py_repr lists "lists");
         ret (entries ++ [JDict (dict_lit [("id", space_id);
                                           ("name", space_name);
                                           ("lists", lists_v)])])%list)
      space_seq [];
  ret (JDict (dict_lit [("workspace", workspace); ("spaces", JList entries)])).

Definition get_workspace_tasks (filters : ref) : M json :=
  do f <- deref filters;
  do list_id <- lift (py_get f "list_id" JNull);
  if py_truthy list_id then
    do tasks <- api_get ("list/" +:+ py_str py_repr list_id +:+ "/task?archived=false");
    lift (py_item py_repr tasks "tasks")
  else
    do teams <- api_get "team";
    do team <- lift (first_team teams);
    do team_id <- lift (py_item py_repr team "id");
    do spaces <- api_get ("team/" +:+ py_str py_repr team_id +:+ "/space?archived=false");
    do all_spaces <- lift (py_item py_repr spaces "spaces");
    do space_seq <- lift (py_iter all_spaces);
    do all_tasks <-
      for_each
        (fun all_tasks space =>
           do space_id <- lift (py_item py_repr space "id");
           do lists <- api_get ("space/" +:+ py_str py_repr space_id +:+ "/list?archived=false");
           do lists_v <- lift (py_item py_repr lists "lists");
           do list_seq <- lift (py_iter lists_v);
           for_each
             (fun all_tasks lst =>
                do lst_id <- lift (py_item py_repr lst "id");
                do tasks <- api_get ("list/" +:+ py_str py_repr lst_id +:+ "/task?archived=false");
                do tasks_v <- lift (py_item py_repr tasks "tasks");
                do more <- lift (py_iter tasks_v);
                ret (all_tasks ++ more)%list)
             list_seq all_tasks)
        space_seq [];
    ret (JList all_tasks).

Definition create_task (arguments : ref) : M json :=
  do a <- deref arguments;
  do list_id <- lift (py_item py_repr a "list_id");
  do name <- lift (py_item py_repr a "name");
  do description <- lift (py_get a "description" (JStr ""));
  do status <- lift (py_get a "status" (JStr "to do"));
  let task_data :=
    dict_lit [("name", name); ("description", description); ("status", status)] in
  do has_priority <- lift (py_str_in "priority" a);
  do task_data <-
    (if has_priority : bool then
       do priority <- lift (py_item py_repr a "priority");
       ret (<["priority" := priority]> task_data)
     else ret task_data);
  api_post ("list/" +:+ py_str py_repr list_id +:+ "/task") (JDict task_data).

Definition get_task (task_id : json) : M json :=
  api_get ("task/" +:+ py_str py_repr task_id).

Definition update_task (arguments : ref) : M json :=
  do task_id <- py_pop py_repr arguments "task_id";
  do body <- deref arguments;
  api_put ("task/" +:+ py_str py_repr task_id) body.

Definition create_task_comment (task_id comment_text : json) : M json :=
  api_post ("task/" +:+ py_str py_repr task_id +:+ "/comment")
           (JDict (dict_lit [("comment_text", comment_text)])).

Definition get_task_comments (task_id : json) : M json :=
  api_get ("task/" +:+ py_str py_repr task_id +:+ "/comment").

Definition get_workspace_members : M json :=
  do teams <- api_get "team";
  do team <- lift (first_team teams);
  do team_id <- lift (py_item py_repr team "id");
  api_get ("team/" +:+ py_str py_repr team_id).

Definition create_list (space_id name : json) : M json :=
  api_post ("space/" +:+ py_str py_repr space_id +:+ "/list")
           (JDict (dict_lit [("name", name)])).

(** [arguments.get(k)] on the object behind the reference. *)
Definition arg_get (arguments : ref) (k : string) : M json :=
  do a <- deref arguments;
  lift (py_get a k JNull).

Definition execute_tool (tool_name : json) (arguments : ref) : M json :=
  if py_eq_str tool_name "search_workspace" then
    do query <- arg_get arguments "query";
    search_workspace query
  else if py_eq_str tool_name "get_workspace_hierarchy" then
    get_workspace_hierarchy
  else if py_eq_str tool_name "get_workspace_tasks" then
    get_workspace_tasks arguments
  else if py_eq_str tool_name "create_task" then
    create_task arguments
  else if py_eq_str tool_name "get_task" then
    do task_id <- arg_get arguments "task_id";
    get_task task_id
  else if py_eq_str tool_name "update_task" then
    update_task arguments
  else if py_eq_str tool_name "create_task_comment" then
    do task_id <- arg_get arguments "task_id";
    do comment_text <- arg_get arguments "comment_text";
    create_task_comment task_id comment_text
  else if py_eq_str tool_name "get_task_comments" then
    do task_id <- arg_get arguments "task_id";
    get_task_comments task_id
  else if py_eq_str tool_name "get_workspace_members" then
    get_workspace_members
  else if py_eq_str tool_name "create_list" then
    do space_id <- arg_get arguments "space_id";
    do name <- arg_get arguments "name";
    create_list space_id name
  else
    raise (Exn ValueError ("Unknown tool: " +:+ py_str py_repr tool_name)).

(** *** The [/mcp] endpoint *)

Definition initialize_result : json :=
  JDict (dict_lit
    [("protocolVersion", JStr "2024-11-05");
     ("capabilities", JDict (dict_lit [("tools", JDict ∅)]));
     ("serverInfo", JDict (dict_lit [("name", JStr "clickup-mcp-server");
                                     ("version", JStr "1.0.0")]))]).

Definition tools_list_result : json :=
  JDict (dict_lit [("tools", JList (ToolInfo.dict <$> get_tools_list))]).

Definition tool_call_result (tool_result : json) : json :=
  JDict (dict_lit
    [("content", JList [JDict (dict_lit [("type", JStr "text");
                                         ("text", JStr (json_dumps tool_result))])]);
     ("isError", JBool false)]).

Definition error_payload (e : exn) : gmap string json :=
  dict_lit [("code", JInt (-32603)); ("message", JStr (exn_str e))].

(** [request.params or {}]. *)
Definition params_or_empty (request : MCPRequest.t) : gmap string json :=
  match MCPRequest.params request with
  | Some d => if py_truthy (JDict d) then d else ∅
  | None => ∅
  end.

(** The body of the [try] block, up to the value bound to [result]. *)
Definition mcp_route (request : MCPRequest.t) : M json :=
  let method := MCPRequest.method request in
  let params := params_or_empty request in
  if String.eqb method "initialize" then
    ret initialize_result
  else if String.eqb method "tools/list" then
    ret tools_list_result
  else if String.eqb method "tools/call" then
    let tool_name := default JNull (params !! "name") in
    do arguments <- alloc (default (JDict ∅) (params !! "arguments"));
    do tool_result <- execute_tool tool_name arguments;
    ret (tool_call_result tool_result)
  else
    raise (Exn ValueError ("Unknown method: " +:+ method)).

Definition mcp_endpoint (request : MCPRequest.t) : M MCPResponse.t :=
  try_except
    (do result <- mcp_route request;
     ret (MCPResponse.mk "2.0" (MCPRequest.id request) (Some result) None))
    (fun e =>
       ret (MCPResponse.mk "2.0" (MCPRequest.id request) None
                           (Some (error_payload e)))).

End Server.

(** The two shapes of response the endpoint builds. *)
Definition success_response (id : option Z) (result : json) : MCPResponse.t :=
  MCPResponse.mk "2.0" id (Some result) None.

Definition error_response (id : option Z) (e : exn) : MCPResponse.t :=
  MCPResponse.mk "2.0" id None (Some (error_payload e)).

(** ** What [search_workspace] is specified to compute

    The specification's reading of the search: fetch the first workspace, all
    its spaces, all lists per space and all tasks per list, then keep the
    lists and tasks whose name contains the query, case-insensitively. *)

Section SearchSpec.

Variable remote : list call -> call -> except json.
Variable py_repr : json -> string.
Variable str_lower : string -> string.

(** The name of [doc] contains [q], ignoring case. *)
Definition name_contains_ci (q : string) (doc : json) : bool :=
  match doc with
  | JDict d =>
      match d !! "name" with
      | Some (JStr n) => is_substring (str_lower q) (str_lower n)
      | _ => false
      end
  | _ => false
  end.

Definition has_name (doc : json) : Prop :=
  exists d n, doc = JDict d /\ d !! "name" = Some (JStr n).

(** All tasks of one list. *)
Definition fetch_tasks (lst : json) : M (list json) :=
  do list_id <- lift (py_item py_repr lst "id");
  do tasks <- api_get remote ("list/" +:+ py_str py_repr list_id +:+ "/task?archived=false");
  do tasks_v <- lift (py_item py_repr tasks "tasks");
  lift (py_iter tasks_v).

(** All lists of one space. *)
Definition fetch_lists (space : json) : M (list json) :=
  do space_id <- lift (py_item py_repr space "id");
  do lists <- api_get remote ("space/" +:+ py_str py_repr space_id +:+ "/list?archived=false");
  do lists_v <- lift (py_item py_repr lists "lists");
  lift (py_iter lists_v).

(** All tasks of the lists of one space, list by list. *)
Definition fetch_list_step (acc : list json) (lst : json) : M (list json) :=
  do list_tasks <- fetch_tasks lst;
  ret (acc ++ list_tasks)%list.

Definition fetch_space_step (fetched : list json * list json) (space : json)
  : M (list json * list json) :=
  do space_lists <- fetch_lists space;
  do space_tasks <- for_each fetch_list_step space_lists [];
  ret ((fetched.1 ++ space_lists)%list, (fetched.2 ++ space_tasks)%list).

(** The spaces document of the first workspace, the lists of all its spaces
    and the tasks of all those lists, in fetch order. *)
Definition fetch_workspace : M (json * list json * list json) :=
  do teams <- api_get remote "team";
  do team <- lift (first_team py_repr teams);
  do team_id <- lift (py_item py_repr team "id");
  do spaces <- api_get remote ("team/" +:+ py_str py_repr team_id +:+ "/space?archived=false");
  do all_spaces <- lift (py_item py_repr spaces "spaces");
  do space_seq <- lift (py_iter all_spaces);
  do fetched <- for_each fetch_space_step space_seq ([], []);
  ret (all_spaces, fetched.1, fetched.2).

End SearchSpec.

(** ** A small workspace to run the server on *)

Definition ascii_lower_char (c : ascii) : ascii :=
  let n := nat_of_ascii c in
  if (65 <=? n)%nat && (n <=? 90)%nat then ascii_of_nat (n + 32) else c.

Fixpoint ascii_lower (s : string) : string :=
  match s with
  | EmptyString => EmptyString
  | String c s' => String (ascii_lower_char c) (ascii_lower s')
  end.

(** A stand-in for [repr] on the values the examples meet. *)
Definition demo_repr (v : json) : string :=
  match v with
  | JNull => "None"
  | JBool true => "True"
  | JBool false => "False"
  | JInt z => pretty z
  | JStr s => "'" +:+ s +:+ "'"
  | JFloat _ => "<float>"
  | JList _ => "[...]"
  | JDict _ => "{...}"
  end.

(** A stand-in for [json.dumps]. *)
Definition demo_dumps (v : json) : string := py_str demo_repr v.

Definition named (id name : string) : json :=
  JDict (dict_lit [("id", JStr id); ("name", JStr name)]).

Definition demo_members : json :=
  JList [JDict (dict_lit [("user", JDict (dict_lit [("id", JInt 7);
                                                   ("username", JStr "ann")]))])].

Definition demo_team : json :=
  JDict (dict_lit [("id", JStr "T1"); ("name", JStr "Acme"); ("members", demo_members)]).

Definition demo_spaces : json := JList [named "S1" "Dev"; named "S2" "Ops"].

(** One team, two spaces, two lists in the first space, three tasks; writes
    are acknowledged with a fixed document; anything else is a 404. *)
Definition demo_remote (_ : list call) (c : call) : except json :=
  match call_verb c with
  | GET =>
      let ep := call_endpoint c in
      if String.eqb ep "team" then
        inr (JDict (dict_lit [("teams", JList [demo_team])]))
      else if String.eqb ep "team/T1" then
        inr (JDict (dict_lit [("team", demo_team)]))
      else if String.eqb ep "team/T1/space?archived=false" then
        inr (JDict (dict_lit [("spaces", demo_spaces)]))
      else if String.eqb ep "space/S1/list?archived=false" then
        inr (JDict (dict_lit [("lists", JList [named "L1" "Backlog";
                                              named "L2" "Test plans"])]))
      else if String.eqb ep "space/S2/list?archived=false" then
        inr (JDict (dict_lit [("lists", JList [])]))
      else if String.eqb ep "list/L1/task?archived=false" then
        inr (JDict (dict_lit [("tasks", JList [named "K1" "Write TESTS";
                                              named "K2" "Deploy"])]))
      else if String.eqb ep "list/L2/task?archived=false" then
        inr (JDict (dict_lit [("tasks", JList [named "K3" "attest release"])]))
      else
        inl (Exn RequestException ("404 Client Error: Not Found for url: " +:+ ep))
  | POST | PUT => inr (JDict (dict_lit [("id", JStr "K9")]))
  | DELETE => inr (JDict ∅)
  end.

Definition empty_state : state := State [] [].

Definition demo_endpoint : MCPRequest.t -> M MCPResponse.t :=
  mcp_endpoint demo_remote demo_repr ascii_lower demo_dumps.

Definition tool_call (id : option Z) (name : string) (arguments : list (string * json))
  : MCPRequest.t :=
  MCPRequest.mk "2.0" id "tools/call"
    (Some (dict_lit [("name", JStr name); ("arguments", JDict (dict_lit arguments))])).

Definition demo_create_args : gmap string json :=
  dict_lit [("list_id", JStr "L1"); ("name", JStr "Test")].

Definition demo_update_args : gmap string json :=
  dict_lit [("task_id", JStr "T1"); ("name", JStr "New")].

(** A state whose heap holds one object, at reference 0, and whose log is
    empty. *)
Definition state_with (v : json) : state := State [v] [].

Definition demo_lists : list json := [named "L1" "Backlog"; named "L2" "Test plans"].

Definition demo_tasks : list json :=
  [named "K1" "Write TESTS"; named "K2" "Deploy"; named "K3" "attest release"].

Definition demo_fan_out : list call :=
  [Call GET "team" None;
   Call GET "team/T1/space?archived=false" None;
   Call GET "space/S1/list?archived=false" None;
   Call GET "list/L1/task?archived=false" None;
   Call GET "list/L2/task?archived=false" None;
   Call GET "space/S2/list?archived=false" None].

(** ** The [/health] endpoint *)

Section Health.

Variable remote : list call -> call -> except json.
Variable py_repr : json -> string.

Definition healthy_document (username : json) : json :=
  JDict (dict_lit [("status", JStr "healthy");
                   ("service", JStr "clickup-mcp-server");
                   ("authenticated", JBool true);
                   ("user", username)]).

Definition unhealthy_document : json :=
  JDict (dict_lit [("status", JStr "unhealthy"); ("authenticated", JBool false)]).

(** [try: ... except: ...] with a bare [except], which catches everything. *)
Definition health_check : M json :=
  try_except
    (do user <- api_get remote "user";
     do account <- lift (py_item py_repr user "user");
     do username <- lift (py_item py_repr account "username");
     ret (healthy_document username))
    (fun _ => ret unhealthy_document).

End Health.

(** ** What a computation does to the state *)

(** Every run of [m] takes a state to one related to it by [R]. *)
Definition respects {A} (R : state -> state -> Prop) (m : M A) : Prop :=
  forall st, R st (snd (m st)).

(** The heap is left as it was. *)
Definition same_heap (st st' : state) : Prop := heap st' = heap st.

(** A call that only reads: a GET, which carries no body. *)
Definition is_read (c : call) : Prop := call_verb c = GET /\ call_body c = None.

(** The log has grown by reads only. *)
Definition only_reads (st st' : state) : Prop :=
  exists new, log st' = log st ++ new /\ Forall is_read new.

(** The tools the executor runs without writing to the remote service. *)
Definition read_only_tools : list string :=
  ["search_workspace"; "get_workspace_hierarchy"; "get_workspace_tasks";
   "get_task"; "get_task_comments"; "get_workspace_members"].

(** What [get_workspace_hierarchy] is to hold for the spaces it walks: with
    the calls of [history] behind it, the entries of [space_seq] are, space by
    space and in order, the space's [id] and [name] and the [lists] member of
    the answer to the GET of that space's lists, each GET joining the
    history; [history'] is the history after the last space. *)
Inductive hierarchy_entries (remote : list call -> call -> except json)
    (repr : json -> string)
  : list call -> list json -> list json -> list call -> Prop :=
| hierarchy_done history :
    hierarchy_entries remote repr history [] [] history
| hierarchy_space history space rest space_id space_name lists lists_v entries
      history' :
    py_item repr space "id" = inr space_id ->
    py_item repr space "name" = inr space_name ->
    remote history
           (Call GET ("space/" +:+ py_str repr space_id +:+ "/list?archived=false") None)
    = inr lists ->
    py_item repr lists "lists" = inr lists_v ->
    hierarchy_entries remote repr
      (history ++ [Call GET ("space/" +:+ py_str repr space_id +:+ "/list?archived=false")
                        None])
      rest entries history' ->
    hierarchy_entries remote repr history (space :: rest)
      (JDict (dict_lit [("id", space_id); ("name", space_name); ("lists", lists_v)])
       :: entries)
      history'.

(** The remote service answers the [tasks] of a list with a JSON array, as
    the ClickUp API does. *)
Definition tasks_are_lists (remote : list call -> call -> except json)
    (repr : json -> string) : Prop :=
  forall history c doc tasks_v,
    remote history c = inr doc ->
    py_item repr doc "tasks" = inr tasks_v ->
    exists tasks, tasks_v = JList tasks.

(** An account that owns no workspace. *)
Definition no_workspace_remote (_ : list call) (c : call) : except json :=
  match call_verb c with
  | GET =>
      if String.eqb (call_endpoint c) "team" then
        inr (JDict (dict_lit [("teams", JList [])]))
      else inl (Exn RequestException "404 Client Error: Not Found")
  | _ => inl (Exn RequestException "404 Client Error: Not Found")
  end.

(** The small workspace, with a [user] resource. *)
Definition demo_remote_with_user (history : list call) (c : call) : except json :=
  match call_verb c with
  | GET =>
      if String.eqb (call_endpoint c) "user" then
        inr (JDict (dict_lit [("user", JDict (dict_lit [("id", JInt 7);
                                                        ("username", JStr "ann")]))]))
      else demo_remote history c
  | _ => demo_remote history c
  end.

(** * Properties *)

(** ** Reasoning about the monad *)

Lemma bind_run {A B} (m : M A) (k : A -> M B) st a st1 :
  m st = (inr a, st1) -> bind m k st = k a st1.
Proof. intros E. unfold bind. now rewrite E. Qed.

Lemma bind_inr_inv {A B} (m : M A) (k : A -> M B) st b st' :
  bind m k st = (inr b, st') ->
  exists a st1, m st = (inr a, st1) /\ k a st1 = (inr b, st').
Proof.
  unfold bind. destruct (m st) as [[e | a] st1]; intros E.
  - discriminate.
  - now exists a, st1.
Qed.

Lemma lift_inr_inv {A} (r : except A) st a st' :
  lift r st = (inr a, st') -> r = inr a /\ st' = st.
Proof. unfold lift. intros E. now inversion E. Qed.

Lemma ret_inv {A} (a b : A) st st' :
  ret a st = (inr b, st') -> a = b /\ st' = st.
Proof. unfold ret. intros E. now inversion E. Qed.

(** Split a successful run into the successful runs of its steps. *)
Ltac run_inv H :=
  repeat match type of H with
    | bind _ _ _ = (inr _, _) =>
        let a := fresh "v" in
        let s := fresh "s" in
        let H1 := fresh "R" in
        apply bind_inr_inv in H as (a & s & H1 & H);
        lazymatch type of H1 with
        | lift _ _ = _ => apply lift_inr_inv in H1 as [H1 ->]
        | _ => idtac
        end
    | ret _ _ = (inr _, _) => apply ret_inv in H as [<- ->]
    | lift _ _ = (inr _, _) => apply lift_inr_inv in H as [H ->]
    end.

Section Properties.

Variable remote : list call -> call -> except json.
Variable py_repr : json -> string.
Variable str_lower : string -> string.
Variable json_dumps : json -> string.


(** *** The dispatcher boundary *)

Lemma mcp_endpoint_run request st :
  mcp_endpoint remote py_repr str_lower json_dumps request st =
  match mcp_route remote py_repr str_lower json_dumps request st with
  | (inr result, st') => (inr (success_response (MCPRequest.id request) result), st')
  | (inl e, st') => (inr (error_response (MCPRequest.id request) e), st')
  end.
Proof.
  unfold mcp_endpoint, try_except, bind, ret.
  destruct (mcp_route remote py_repr str_lower json_dumps request st) as [[e | result] st']; reflexivity.
Qed.

Lemma error_payload_code e : error_payload e !! "code" = Some (JInt (-32603)).
Proof. reflexivity. Qed.

Lemma error_payload_message e : error_payload e !! "message" = Some (JStr (exn_str e)).
Proof. reflexivity. Qed.

Lemma py_eq_str_false tool_name s :
  tool_name <> JStr s -> py_eq_str tool_name s = false.
Proof.
  destruct tool_name; simpl; try reflexivity.
  intros Hne. apply String.eqb_neq. congruence.
Qed.

Lemma execute_tool_unknown tool_name arguments st :
  (forall tn, tn ∈ tool_names -> tool_name <> JStr tn) ->
  execute_tool remote py_repr str_lower tool_name arguments st
  = (inl (Exn ValueError ("Unknown tool: " +:+ py_str py_repr tool_name)), st).
Proof.
  intros Hnot. unfold execute_tool.
  repeat (rewrite py_eq_str_false;
          [| apply Hnot; unfold tool_names; simpl; set_solver]).
  reflexivity.
Qed.

Lemma route_unknown_method request st :
  MCPRequest.method request ∉ ["initialize"; "tools/list"; "tools/call"] ->
  mcp_route remote py_repr str_lower json_dumps request st
  = (inl (Exn ValueError ("Unknown method: " +:+ MCPRequest.method request)), st).
Proof.
  intros Hnot. unfold mcp_route.
  repeat match goal with
    | |- context [String.eqb ?m ?s] =>
        destruct (String.eqb_spec m s) as [Heq | _];
        [exfalso; apply Hnot; rewrite Heq; set_solver |]
    end.
  reflexivity.
Qed.

Lemma route_unknown_tool request st :
  MCPRequest.method request = "tools/call" ->
  let tool_name := default JNull (params_or_empty request !! "name") in
  let arguments := default (JDict ∅) (params_or_empty request !! "arguments") in
  (forall tn, tn ∈ tool_names -> tool_name <> JStr tn) ->
  mcp_route remote py_repr str_lower json_dumps request st
  = (inl (Exn ValueError ("Unknown tool: " +:+ py_str py_repr tool_name)),
     State (heap st ++ [arguments]) (log st)).
Proof.
  intros Hm tool_name arguments Hnot. unfold mcp_route. rewrite Hm. simpl.
  unfold bind, alloc. fold tool_name arguments.
  now rewrite execute_tool_unknown.
Qed.

Lemma route_result_is_dict request st result st' :
  mcp_route remote py_repr str_lower json_dumps request st = (inr result, st') ->
  exists d, result = JDict d.
Proof.
  unfold mcp_route.
  destruct (String.eqb (MCPRequest.method request) "initialize");
    [intros [<- _]%ret_inv; unfold initialize_result; eauto |].
  destruct (String.eqb (MCPRequest.method request) "tools/list");
    [intros [<- _]%ret_inv; unfold tools_list_result; eauto |].
  destruct (String.eqb (MCPRequest.method request) "tools/call");
    [| discriminate].
  intros Hrun.
  apply bind_inr_inv in Hrun as (arguments & st1 & _ & Hrun).
  apply bind_inr_inv in Hrun as (tool_result & st2 & _ & Hrun).
  apply ret_inv in Hrun as [<- _]. unfold tool_call_result. eauto.
Qed.

(** C1.  Whatever fault the handling of a request raises -- an unknown
    method, an unknown tool name, a failed remote call, a missing or
    malformed argument -- the endpoint returns a response: no exception
    escapes it.  The response to a fault [e] carries no result and the error
    [{code: -32603, message: str(e)}].  In particular an unknown method and
    an unregistered tool name are answered that way. *)
Theorem mcp_endpoint_catches_every_fault request st :
  (exists response st', mcp_endpoint remote py_repr str_lower json_dumps request st = (inr response, st'))
  /\ (forall e st',
        mcp_route remote py_repr str_lower json_dumps request st = (inl e, st') ->
        mcp_endpoint remote py_repr str_lower json_dumps request st
        = (inr (MCPResponse.mk "2.0" (MCPRequest.id request) None
                  (Some (dict_lit [("code", JInt (-32603));
                                   ("message", JStr (exn_str e))]))),
           st'))
  /\ (MCPRequest.method request ∉ ["initialize"; "tools/list"; "tools/call"] ->
      mcp_endpoint remote py_repr str_lower json_dumps request st
      = (inr (MCPResponse.mk "2.0" (MCPRequest.id request) None
                (Some (dict_lit
                   [("code", JInt (-32603));
                    ("message",
                     JStr ("Unknown method: " +:+ MCPRequest.method request))]))),
         st))
  /\ (MCPRequest.method request = "tools/call" ->
      (forall tn, tn ∈ tool_names ->
                  default JNull (params_or_empty request !! "name") <> JStr tn) ->
      exists st',
        mcp_endpoint remote py_repr str_lower json_dumps request st
        = (inr (MCPResponse.mk "2.0" (MCPRequest.id request) None
                  (Some (dict_lit
                     [("code", JInt (-32603));
                      ("message",
                       JStr ("Unknown tool: " +:+
                             py_str py_repr
                               (default JNull (params_or_empty request !! "name"))))]))),
           st')
        /\ log st' = log st).
Proof.
  repeat split.
  - rewrite mcp_endpoint_run.
    destruct (mcp_route remote py_repr str_lower json_dumps request st) as [[e | result] st']; eauto.
  - intros e st' Hfault. rewrite mcp_endpoint_run, Hfault. reflexivity.
  - intros Hnot. rewrite mcp_endpoint_run, route_unknown_method by exact Hnot.
    reflexivity.
  - intros Hm Hnot. eexists. rewrite mcp_endpoint_run.
    rewrite route_unknown_tool by assumption. split; reflexivity.
Qed.

(** C2.  The response to a request carries the request's [id], whether the
    outcome is a result or an error. *)
Theorem mcp_endpoint_echoes_id request st :
  exists response st',
    mcp_endpoint remote py_repr str_lower json_dumps request st = (inr response, st')
    /\ MCPResponse.id response = MCPRequest.id request.
Proof.
  rewrite mcp_endpoint_run.
  destruct (mcp_route remote py_repr str_lower json_dumps request st) as [[e | result] st']; eauto.
Qed.

(** On the response object one of [result] and [error] is set and the other
    is [None]: a success carries a result, which is a dictionary and so never
    [None], and no error; a failure carries an error and no result. *)
Lemma mcp_endpoint_result_xor_error request st :
  exists response st',
    mcp_endpoint remote py_repr str_lower json_dumps request st = (inr response, st')
    /\ (((exists d, MCPResponse.result response = Some (JDict d))
         /\ MCPResponse.error response = None)
        \/ (MCPResponse.result response = None
            /\ exists payload, MCPResponse.error response = Some payload)).
Proof.
  rewrite mcp_endpoint_run.
  destruct (mcp_route remote py_repr str_lower json_dumps request st)
    as [[e | result] st'] eqn:Hroute.
  - do 2 eexists. split; [reflexivity |]. right. simpl. eauto.
  - do 2 eexists. split; [reflexivity |]. left. simpl. split; [| reflexivity].
    apply route_result_is_dict in Hroute as [d ->]. eauto.
Qed.


(** C8.  [initialize] never fails and always answers with the same fixed
    document, the protocol version, the capabilities and the identity of the
    server: any two consecutive calls both succeed with that payload, touch
    neither the remote service nor the heap, and leave the state as it
    was. *)
Theorem initialize_fixed_and_idempotent
    (v1 v2 : string) (id1 id2 : option Z) (p1 p2 : option (gmap string json)) st :
  let payload :=
    JDict (dict_lit
      [("protocolVersion", JStr "2024-11-05");
       ("capabilities", JDict (dict_lit [("tools", JDict ∅)]));
       ("serverInfo", JDict (dict_lit [("name", JStr "clickup-mcp-server");
                                       ("version", JStr "1.0.0")]))]) in
  mcp_endpoint remote py_repr str_lower json_dumps (MCPRequest.mk v1 id1 "initialize" p1) st
  = (inr (MCPResponse.mk "2.0" id1 (Some payload) None), st)
  /\ mcp_endpoint remote py_repr str_lower json_dumps (MCPRequest.mk v2 id2 "initialize" p2)
       (snd (mcp_endpoint remote py_repr str_lower json_dumps (MCPRequest.mk v1 id1 "initialize" p1) st))
     = (inr (MCPResponse.mk "2.0" id2 (Some payload) None), st).
Proof.
  intros payload.
  assert (Hone : forall v id p s,
             mcp_endpoint remote py_repr str_lower json_dumps (MCPRequest.mk v id "initialize" p) s
             = (inr (MCPResponse.mk "2.0" id (Some payload) None), s))
    by reflexivity.
  split.
  - apply Hone.
  - rewrite (Hone v1 id1 p1 st). apply Hone.
Qed.

(** C9.  The catalog is a fixed, non-empty sequence of ten descriptors with
    pairwise distinct names, in the order of the source; the executor
    dispatches on no name outside it (any other name is the unknown-tool
    fault, raised before anything else happens); and [tools/list] returns
    the descriptors unchanged without touching the state. *)
Theorem tool_catalog_fixed_unique_and_complete :
  tool_names
  = ["search_workspace"; "get_workspace_hierarchy"; "get_workspace_tasks";
     "create_task"; "get_task"; "update_task"; "create_task_comment";
     "get_task_comments"; "get_workspace_members"; "create_list"]
  /\ NoDup tool_names
  /\ get_tools_list <> []
  /\ (forall tool_name arguments st,
        (forall tn, tn ∈ tool_names -> tool_name <> JStr tn) ->
        execute_tool remote py_repr str_lower tool_name arguments st
        = (inl (Exn ValueError ("Unknown tool: " +:+ py_str py_repr tool_name)), st))
  /\ (forall v id p st,
        mcp_endpoint remote py_repr str_lower json_dumps (MCPRequest.mk v id "tools/list" p) st
        = (inr (MCPResponse.mk "2.0" id
                  (Some (JDict (dict_lit
                     [("tools", JList (ToolInfo.dict <$> get_tools_list))])))
                  None),
           st)).
Proof.
  split; [reflexivity |].
  split; [compute_done |].
  split; [discriminate |].
  split; [intros; now apply execute_tool_unknown |].
  reflexivity.
Qed.

(** *** Single-call tools *)

(** C5.  On an argument map with [list_id] and [name], [create_task] issues
    exactly one remote call, a POST to [list/{list_id}/task]; the body has
    the given name, the supplied status or ["to do"], the supplied
    description or the empty string, a priority exactly when one was
    supplied, and no other key.  The tool returns what the remote answers. *)
Theorem create_task_posts_once arguments st d list_id name :
  heap st !! arguments = Some (JDict d) ->
  d !! "list_id" = Some list_id ->
  d !! "name" = Some name ->
  exists body,
    let c := Call POST ("list/" +:+ py_str py_repr list_id +:+ "/task")
                  (Some (JDict body)) in
    create_task remote py_repr arguments st
    = (remote (log st) c, State (heap st) (log st ++ [c]))
    /\ body !! "name" = Some name
    /\ body !! "status" = Some (default (JStr "to do") (d !! "status"))
    /\ body !! "description" = Some (default (JStr "") (d !! "description"))
    /\ body !! "priority" = d !! "priority"
    /\ (forall k, k ∉ ["name"; "description"; "status"; "priority"] ->
                  body !! k = None).
Proof using Type.
  clear str_lower json_dumps.
  intros Hargs Hlist Hname.
  unfold create_task, bind, deref, lift, ret. rewrite Hargs. simpl.
  rewrite Hlist, Hname. simpl.
  destruct (d !! "priority") as [priority |] eqn:Hprio; simpl;
    eexists; (split; [reflexivity |]); repeat split; try reflexivity;
    intros k Hk; unfold dict_lit; simpl;
    rewrite ?lookup_insert_ne by set_solver; apply lookup_empty.
Qed.

Lemma update_task_run arguments st d task_id :
  heap st !! arguments = Some (JDict d) ->
  d !! "task_id" = Some task_id ->
  let c := Call PUT ("task/" +:+ py_str py_repr task_id)
                (Some (JDict (delete "task_id" d))) in
  update_task remote py_repr arguments st
  = (remote (log st) c,
     State (<[arguments := JDict (delete "task_id" d)]> (heap st)) (log st ++ [c])).
Proof.
  intros Hargs Htask c.
  assert (Hlt : (arguments < length (heap st))%nat)
    by (eapply lookup_lt_Some; exact Hargs).
  unfold update_task, py_pop, bind, deref, store, ret. rewrite Hargs. simpl.
  rewrite Htask. simpl. unfold api_put, api_request. simpl.
  rewrite list_lookup_insert_eq by exact Hlt. reflexivity.
Qed.

(** C6.  On an argument map with [task_id], [update_task] issues exactly
    one remote call, a PUT to [task/{task_id}]; the body is the argument
    map without its [task_id] key, every other pair unchanged.  The tool
    returns what the remote answers. *)
Theorem update_task_puts_once arguments st d task_id :
  heap st !! arguments = Some (JDict d) ->
  d !! "task_id" = Some task_id ->
  let body := delete "task_id" d in
  let c := Call PUT ("task/" +:+ py_str py_repr task_id) (Some (JDict body)) in
  update_task remote py_repr arguments st
  = (remote (log st) c,
     State (<[arguments := JDict body]> (heap st)) (log st ++ [c]))
  /\ body !! "task_id" = None
  /\ (forall k, k <> "task_id" -> body !! k = d !! k).
Proof.
  intros Hargs Htask body c.
  split; [| split].
  - now apply update_task_run.
  - apply lookup_delete_eq.
  - intros k Hk. apply lookup_delete_ne. congruence.
Qed.

(** C10.  [execute_tool("update_task", arguments)] changes the caller's own
    map: whatever the remote call answers, afterwards the object behind
    [arguments] is the original map without [task_id], every other object
    is untouched, and the tool has issued its one PUT. *)
Theorem update_task_mutates_caller_arguments arguments st d task_id :
  heap st !! arguments = Some (JDict d) ->
  d !! "task_id" = Some task_id ->
  let st' := snd (execute_tool remote py_repr str_lower (JStr "update_task") arguments st) in
  heap st' !! arguments = Some (JDict (delete "task_id" d))
  /\ JDict (delete "task_id" d) <> JDict d
  /\ (forall r, r <> arguments -> heap st' !! r = heap st !! r)
  /\ log st'
     = (log st ++ [Call PUT ("task/" +:+ py_str py_repr task_id)
                        (Some (JDict (delete "task_id" d)))])%list.
Proof.
  intros Hargs Htask st'.
  assert (Hlt : (arguments < length (heap st))%nat)
    by (eapply lookup_lt_Some; exact Hargs).
  assert (Hrun : st' = State (<[arguments := JDict (delete "task_id" d)]> (heap st))
                         (log st ++ [Call PUT ("task/" +:+ py_str py_repr task_id)
                                           (Some (JDict (delete "task_id" d)))])).
  { unfold st'. change (execute_tool remote py_repr str_lower (JStr "update_task") arguments st)
      with (update_task remote py_repr arguments st).
    now rewrite (update_task_run arguments st d task_id Hargs Htask). }
  rewrite Hrun. simpl. repeat split.
  - now apply list_lookup_insert_eq.
  - intros Heq. injection Heq as Heq.
    assert (Hgone : delete "task_id" d !! "task_id" = None) by apply lookup_delete_eq.
    rewrite Heq, Htask in Hgone. discriminate.
  - intros r Hr. apply list_lookup_insert_ne. congruence.
Qed.

(** C7, as the code has it.  [get_workspace_members] issues two remote
    GETs in sequence: [team], then [team/{id}] for the id of the first
    workspace of the first answer; it returns the second answer as it is. *)
Theorem get_workspace_members_two_gets st teams team team_id :
  remote (log st) (Call GET "team" None) = inr teams ->
  first_team py_repr teams = inr team ->
  py_item py_repr team "id" = inr team_id ->
  let c1 := Call GET "team" None in
  let c2 := Call GET ("team/" +:+ py_str py_repr team_id) None in
  get_workspace_members remote py_repr st
  = (remote (log st ++ [c1]) c2, State (heap st) (log st ++ [c1; c2])).
Proof.
  intros Hteams Hteam Hid c1 c2.
  unfold get_workspace_members, bind, lift, api_get, api_request. simpl.
  rewrite Hteams, Hteam, Hid. simpl.
  now rewrite <- app_assoc.
Qed.

(** *** The search *)

#[local] Abbreviation matching q :=
  (filter (fun doc => name_contains_ci str_lower q doc = true)).

Lemma name_matches_has_name q doc :
  has_name doc ->
  name_matches py_repr str_lower (JStr q) doc
  = inr (name_contains_ci str_lower q doc).
Proof.
  intros (d & n & -> & Hn). unfold name_matches. simpl. now rewrite Hn.
Qed.

Lemma matching_one q doc :
  matching q [doc] = if name_contains_ci str_lower q doc then [doc] else [].
Proof.
  rewrite filter_cons, filter_nil.
  destruct (name_contains_ci str_lower q doc); now case_decide.
Qed.

Lemma search_task_loop q task_seq acc st :
  Forall has_name task_seq ->
  for_each (search_task_step py_repr str_lower (JStr q)) task_seq acc st
  = (inr (acc ++ matching q task_seq), st).
Proof.
  intros Hnames. revert acc.
  induction Hnames as [| task rest Htask _ IH]; intros acc; simpl.
  - unfold ret. now rewrite filter_nil, app_nil_r.
  - unfold bind at 1. unfold search_task_step at 1. unfold bind, lift, ret.
    rewrite (name_matches_has_name q task Htask).
    rewrite IH.
    change (task :: rest) with ([task] ++ rest).
    rewrite filter_app, matching_one.
    destruct (name_contains_ci str_lower q task); simpl.
    + now rewrite <- app_assoc.
    + reflexivity.
Qed.

Lemma search_list_step_run q lst st ts st' :
  fetch_tasks remote py_repr lst st = (inr ts, st') ->
  has_name lst ->
  Forall has_name ts ->
  forall found_lists found_tasks,
    search_list_step remote py_repr str_lower (JStr q) (found_lists, found_tasks) lst st
    = (inr (found_lists ++ matching q [lst], found_tasks ++ matching q ts), st').
Proof.
  intros Hfetch Hlst Hts fl ft.
  unfold fetch_tasks in Hfetch. run_inv Hfetch.
  unfold search_list_step.
  erewrite bind_run by (unfold lift; now rewrite name_matches_has_name).
  erewrite bind_run by (unfold lift; now rewrite R).
  erewrite bind_run by exact R0.
  erewrite bind_run by (unfold lift; now rewrite R1).
  erewrite bind_run by (unfold lift; now rewrite Hfetch).
  erewrite bind_run by (now apply search_task_loop).
  unfold ret. simpl. rewrite matching_one.
  destruct (name_contains_ci str_lower q lst); [reflexivity |].
  now rewrite app_nil_r.
Qed.

Lemma search_list_loop q list_seq :
  forall acc st fetched st',
    for_each (fetch_list_step remote py_repr) list_seq acc st = (inr fetched, st') ->
    exists new,
      fetched = acc ++ new
      /\ (Forall has_name list_seq ->
          Forall has_name new ->
          forall found_lists found_tasks,
            for_each (search_list_step remote py_repr str_lower (JStr q))
                     list_seq (found_lists, found_tasks) st
            = (inr (found_lists ++ matching q list_seq,
                    found_tasks ++ matching q new), st')).
Proof.
  induction list_seq as [| lst rest IH]; intros acc st fetched st' Hfetch;
    simpl in Hfetch.
  - apply ret_inv in Hfetch as [<- ->]. exists []. split.
    + now rewrite app_nil_r.
    + intros _ _ fl ft. simpl. unfold ret.
      now rewrite filter_nil, !app_nil_r.
  - apply bind_inr_inv in Hfetch as (acc1 & st1 & Hstep & Hrest).
    unfold fetch_list_step in Hstep.
    apply bind_inr_inv in Hstep as (ts & st1' & Hts & Hret).
    apply ret_inv in Hret as [<- ->].
    destruct (IH _ _ _ _ Hrest) as (new & -> & Hsearch).
    exists (ts ++ new). split.
    + now rewrite app_assoc.
    + intros Hlists Hnew fl ft.
      apply Forall_cons in Hlists as [Hlst Hlists].
      apply Forall_app in Hnew as [Hts_names Hnew].
      simpl.
      erewrite bind_run by (eapply search_list_step_run; eassumption).
      rewrite (Hsearch Hlists Hnew).
      change (lst :: rest) with ([lst] ++ rest).
      now rewrite !filter_app, !app_assoc.
Qed.

Lemma search_space_loop q space_seq :
  forall acc st fetched st',
    for_each (fetch_space_step remote py_repr) space_seq acc st = (inr fetched, st') ->
    exists new_lists new_tasks,
      fetched = (acc.1 ++ new_lists, acc.2 ++ new_tasks)
      /\ (Forall has_name new_lists ->
          Forall has_name new_tasks ->
          forall found_lists found_tasks,
            for_each (search_space_step remote py_repr str_lower (JStr q))
                     space_seq (found_lists, found_tasks) st
            = (inr (found_lists ++ matching q new_lists,
                    found_tasks ++ matching q new_tasks), st')).
Proof.
  induction space_seq as [| space rest IH]; intros acc st fetched st' Hfetch;
    simpl in Hfetch.
  - apply ret_inv in Hfetch as [<- ->]. exists [], []. split.
    + destruct acc. simpl. now rewrite !app_nil_r.
    + intros _ _ fl ft. simpl. unfold ret.
      now rewrite filter_nil, !app_nil_r.
  - apply bind_inr_inv in Hfetch as (acc1 & st1 & Hstep & Hrest).
    unfold fetch_space_step in Hstep.
    apply bind_inr_inv in Hstep as (space_lists & st2 & Hlists & Hstep).
    apply bind_inr_inv in Hstep as (space_tasks & st3 & Htasks & Hret).
    apply ret_inv in Hret as [<- ->].
    destruct (search_list_loop q _ _ _ _ _ Htasks) as (ts & -> & Hinner).
    destruct (IH _ _ _ _ Hrest) as (new_lists & new_tasks & -> & Hsearch).
    simpl. exists (space_lists ++ new_lists), (ts ++ new_tasks). split.
    + now rewrite !app_assoc.
    + intros Hnl Hnt fl ft.
      apply Forall_app in Hnl as [Hsl Hnl].
      apply Forall_app in Hnt as [Hts Hnt].
      simpl.
      assert (Hspace :
                search_space_step remote py_repr str_lower (JStr q) (fl, ft) space st
                = (inr (fl ++ matching q space_lists, ft ++ matching q ts), st3)).
      { unfold fetch_lists in Hlists. run_inv Hlists.
        unfold search_space_step.
        erewrite bind_run by (unfold lift; now rewrite R).
        erewrite bind_run by exact R0.
        erewrite bind_run by (unfold lift; now rewrite R1).
        erewrite bind_run by (unfold lift; now rewrite Hlists).
        now apply Hinner. }
      erewrite bind_run by exact Hspace.
      rewrite (Hsearch Hnl Hnt).
      now rewrite !filter_app, !app_assoc.
Qed.

(** C4.  Whenever the workspace can be fetched -- the first workspace, its
    spaces, the lists of every space and the tasks of every list -- and the
    fetched lists and tasks carry a string name, [search_workspace] with the
    string query [q] issues exactly those fetches and returns the map whose
    [tasks] are the fetched tasks whose name contains [q] ignoring case,
    whose [lists] are the fetched lists whose name contains [q] ignoring
    case, and whose [spaces] is the fetched spaces document, unfiltered.
    When [q] matches no task and no list the result is
    [{tasks: [], lists: [], spaces: all fetched spaces}]. *)
Theorem search_workspace_filters_fetched q st all_spaces lists tasks st' :
  fetch_workspace remote py_repr st = (inr (all_spaces, lists, tasks), st') ->
  Forall has_name lists ->
  Forall has_name tasks ->
  search_workspace remote py_repr str_lower (JStr q) st
  = (inr (JDict (dict_lit [("tasks", JList (matching q tasks));
                           ("lists", JList (matching q lists));
                           ("spaces", all_spaces)])), st')
  /\ ((forall doc, doc ∈ lists ++ tasks -> name_contains_ci str_lower q doc = false) ->
      search_workspace remote py_repr str_lower (JStr q) st
      = (inr (JDict (dict_lit [("tasks", JList []);
                               ("lists", JList []);
                               ("spaces", all_spaces)])), st')).
Proof using Type.
  clear json_dumps.
  intros Hfetch Hlists Htasks.
  assert (Hrun :
            search_workspace remote py_repr str_lower (JStr q) st
            = (inr (JDict (dict_lit [("tasks", JList (matching q tasks));
                                     ("lists", JList (matching q lists));
                                     ("spaces", all_spaces)])), st')).
  { unfold fetch_workspace in Hfetch.
    apply bind_inr_inv in Hfetch as (teams & st1 & Hteams & Hfetch).
    apply bind_inr_inv in Hfetch as (team & ? & [Hteam ->]%lift_inr_inv & Hfetch).
    apply bind_inr_inv in Hfetch as (team_id & ? & [Hid ->]%lift_inr_inv & Hfetch).
    apply bind_inr_inv in Hfetch as (spaces & st2 & Hspaces & Hfetch).
    apply bind_inr_inv in Hfetch as (sv & ? & [Hsv ->]%lift_inr_inv & Hfetch).
    apply bind_inr_inv in Hfetch as (space_seq & ? & [Hseq ->]%lift_inr_inv & Hfetch).
    apply bind_inr_inv in Hfetch as (fetched & st3 & Hloop & Hfetch).
    apply ret_inv in Hfetch as [Hres ->].
    injection Hres as -> <- <-.
    destruct (search_space_loop q _ _ _ _ _ Hloop) as (nl & nt & Hv & Hsearch).
    rewrite Hv in Hlists, Htasks |- *. simpl in Hlists, Htasks |- *.
    unfold search_workspace.
    erewrite bind_run by exact Hteams.
    erewrite bind_run by (unfold lift; now rewrite Hteam).
    erewrite bind_run by (unfold lift; now rewrite Hid).
    erewrite bind_run by exact Hspaces.
    erewrite bind_run by (unfold lift; now rewrite Hsv).
    erewrite bind_run by (unfold lift; now rewrite Hseq).
    erewrite bind_run by (now apply Hsearch).
    reflexivity. }
  split; [exact Hrun |].
  intros Hnone. rewrite Hrun.
  assert (Hempty : forall docs, (forall doc, doc ∈ docs ->
                                  name_contains_ci str_lower q doc = false) ->
                                matching q docs = []).
  { induction docs as [| doc docs IH]; intros Hdocs.
    - apply filter_nil.
    - rewrite filter_cons. case_decide as Hhit.
      + rewrite Hdocs in Hhit by set_solver. discriminate.
      + apply IH. intros ? ?. apply Hdocs. set_solver. }
  rewrite !Hempty; [reflexivity | | ]; intros doc Hdoc; apply Hnone; set_solver.
Qed.

End Properties.

(** ** The server on the small workspace *)

Example characters_of_a_string :
  py_iter (JStr (String "195" (String "169" "!")))
  = inr [JStr (String "195" (String "169" "")); JStr "!"].
Proof. reflexivity. Qed.

Example unknown_tool_is_an_error_response :
  demo_endpoint (tool_call (Some 3) "delete_workspace" []) empty_state
  = (inr (error_response (Some 3) (Exn ValueError "Unknown tool: delete_workspace")),
     State [JDict ∅] []).
Proof. vm_compute. reflexivity. Qed.

Example missing_tool_name_is_an_error_response :
  demo_endpoint (MCPRequest.mk "2.0" None "tools/call" None) empty_state
  = (inr (error_response None (Exn ValueError "Unknown tool: None")),
     State [JDict ∅] []).
Proof. vm_compute. reflexivity. Qed.

Example missing_argument_is_an_error_response :
  demo_endpoint (tool_call (Some 4) "create_task" [("name", JStr "Test")]) empty_state
  = (inr (error_response (Some 4) (Exn KeyError "'list_id'")),
     State [JDict (dict_lit [("name", JStr "Test")])] []).
Proof. vm_compute. reflexivity. Qed.

Example malformed_arguments_is_an_error_response :
  fst (demo_endpoint
         (MCPRequest.mk "2.0" (Some 5) "tools/call"
            (Some (dict_lit [("name", JStr "get_task"); ("arguments", JNull)])))
         empty_state)
  = inr (error_response (Some 5)
           (Exn AttributeError "'NoneType' object has no attribute 'get'")).
Proof. vm_compute. reflexivity. Qed.

Example remote_failure_then_next_request_succeeds :
  let first := demo_endpoint (tool_call (Some 6) "get_task" [("task_id", JStr "nope")])
                             empty_state in
  fst first
  = inr (error_response (Some 6)
           (Exn RequestException "404 Client Error: Not Found for url: task/nope"))
  /\ fst (demo_endpoint (MCPRequest.mk "2.0" (Some 7) "initialize" None) (snd first))
     = inr (success_response (Some 7) initialize_result).
Proof. split; vm_compute; reflexivity. Qed.

Example search_without_query_faults_at_first_list :
  fst (demo_endpoint (tool_call (Some 8) "search_workspace" []) empty_state)
  = inr (error_response (Some 8)
           (Exn AttributeError "'NoneType' object has no attribute 'lower'")).
Proof. vm_compute. reflexivity. Qed.

(** ** Instances on the small workspace *)

Lemma mcp_endpoint_catches_every_fault_witness :
  demo_endpoint (tool_call (Some 6) "get_task" [("task_id", JStr "nope")]) empty_state
  = (inr (MCPResponse.mk "2.0" (Some 6) None
            (Some (dict_lit
               [("code", JInt (-32603));
                ("message", JStr "404 Client Error: Not Found for url: task/nope")]))),
     State [JDict (dict_lit [("task_id", JStr "nope")])] [Call GET "task/nope" None]).
Proof.
  apply (proj1 (proj2 (mcp_endpoint_catches_every_fault
                         demo_remote demo_repr ascii_lower demo_dumps
                         (tool_call (Some 6) "get_task" [("task_id", JStr "nope")])
                         empty_state))
               (Exn RequestException "404 Client Error: Not Found for url: task/nope")).
  vm_compute. reflexivity.
Defined.

Lemma tool_catalog_fixed_unique_and_complete_witness :
  execute_tool demo_remote demo_repr ascii_lower (JStr "delete_workspace") 0%nat
               (state_with (JDict ∅))
  = (inl (Exn ValueError "Unknown tool: delete_workspace"), state_with (JDict ∅)).
Proof.
  apply (proj1 (proj2 (proj2 (proj2 (tool_catalog_fixed_unique_and_complete
                                       demo_remote demo_repr ascii_lower demo_dumps))))).
  intros tn Hin Heq. injection Heq as <-. revert Hin. compute_done.
Defined.

Lemma search_workspace_filters_fetched_witness :
  search_workspace demo_remote demo_repr ascii_lower (JStr "test") empty_state
  = (inr (JDict (dict_lit
            [("tasks", JList [named "K1" "Write TESTS"; named "K3" "attest release"]);
             ("lists", JList [named "L2" "Test plans"]);
             ("spaces", demo_spaces)])),
     State [] demo_fan_out).
Proof.
  assert (Hnamed : forall i n, has_name (named i n)).
  { intros i n. eexists _, n. split; reflexivity. }
  apply (proj1 (search_workspace_filters_fetched
                  demo_remote demo_repr ascii_lower "test" empty_state
                  demo_spaces demo_lists demo_tasks (State [] demo_fan_out)
                  eq_refl
                  ltac:(repeat constructor; apply Hnamed)
                  ltac:(repeat constructor; apply Hnamed))).
Defined.

Lemma create_task_posts_once_witness :
  exists body,
    create_task demo_remote demo_repr 0%nat (state_with (JDict demo_create_args))
    = (inr (JDict (dict_lit [("id", JStr "K9")])),
       State [JDict demo_create_args]
             [Call POST "list/L1/task" (Some (JDict body))])
    /\ body !! "name" = Some (JStr "Test")
    /\ body !! "status" = Some (JStr "to do")
    /\ body !! "description" = Some (JStr "")
    /\ body !! "priority" = None.
Proof.
  destruct (create_task_posts_once demo_remote demo_repr 0%nat
              (state_with (JDict demo_create_args)) demo_create_args
              (JStr "L1") (JStr "Test") eq_refl eq_refl eq_refl)
    as (body & Hrun & Hname & Hstatus & Hdescr & Hprio & _).
  exists body. repeat split; assumption.
Defined.

Lemma update_task_puts_once_witness :
  update_task demo_remote demo_repr 0%nat (state_with (JDict demo_update_args))
  = (inr (JDict (dict_lit [("id", JStr "K9")])),
     State [JDict (dict_lit [("name", JStr "New")])]
           [Call PUT "task/T1" (Some (JDict (dict_lit [("name", JStr "New")])))])
  /\ delete "task_id" demo_update_args !! "task_id" = None
  /\ delete "task_id" demo_update_args !! "name" = Some (JStr "New").
Proof.
  destruct (update_task_puts_once demo_remote demo_repr 0%nat
              (state_with (JDict demo_update_args)) demo_update_args (JStr "T1")
              eq_refl eq_refl)
    as (Hrun & Hgone & Hkept).
  split; [| split].
  - rewrite Hrun. vm_compute. reflexivity.
  - exact Hgone.
  - rewrite Hkept by discriminate. reflexivity.
Defined.

Lemma update_task_mutates_caller_arguments_witness :
  heap (snd (execute_tool demo_remote demo_repr ascii_lower (JStr "update_task") 0%nat
                          (state_with (JDict demo_update_args)))) !! 0%nat
  = Some (JDict (delete "task_id" demo_update_args)).
Proof.
  apply (proj1 (update_task_mutates_caller_arguments
                  demo_remote demo_repr ascii_lower 0%nat
                  (state_with (JDict demo_update_args)) demo_update_args (JStr "T1")
                  eq_refl eq_refl)).
Defined.

Lemma get_workspace_members_two_gets_witness :
  get_workspace_members demo_remote demo_repr empty_state
  = (inr (JDict (dict_lit [("team", demo_team)])),
     State [] [Call GET "team" None; Call GET "team/T1" None]).
Proof.
  apply (get_workspace_members_two_gets demo_remote demo_repr empty_state
           (JDict (dict_lit [("teams", JList [demo_team])])) demo_team (JStr "T1")
           eq_refl eq_refl eq_refl).
Defined.

(** C7, as stated, fails on the small workspace: the tool issues two remote
    calls, not one, and what it returns is the team document, not the member
    list of the first workspace. *)
Lemma get_workspace_members_not_single_call :
  let run := get_workspace_members demo_remote demo_repr empty_state in
  length (log (snd run)) <> 1%nat
  /\ fst run <> inr demo_members.
Proof.
  split.
  - vm_compute. discriminate.
  - vm_compute. discriminate.
Qed.


(** * Further properties of the executor *)

(** ** Effects that compose *)

Section Respects.

Context {R : state -> state -> Prop}.
Hypothesis R_refl : forall st, R st st.
Hypothesis R_trans : forall st1 st2 st3, R st1 st2 -> R st2 st3 -> R st1 st3.

Lemma respects_ret {A} (a : A) : respects R (ret a).
Proof using R_refl. intros st. apply R_refl. Qed.

Lemma respects_raise {A} (e : exn) : respects R (raise (A := A) e).
Proof using R_refl. intros st. apply R_refl. Qed.

Lemma respects_lift {A} (r : except A) : respects R (lift r).
Proof using R_refl. intros st. apply R_refl. Qed.

Lemma respects_deref r : respects R (deref r).
Proof using R_refl. intros st. apply R_refl. Qed.

Lemma respects_bind {A B} (m : M A) (k : A -> M B) :
  respects R m -> (forall a, respects R (k a)) -> respects R (bind m k).
Proof using R_trans.
  intros Hm Hk st. unfold bind. specialize (Hm st).
  destruct (m st) as [[e | a] st1]; simpl in *.
  - exact Hm.
  - eapply R_trans; [exact Hm | apply Hk].
Qed.

Lemma respects_try_except {A} (body : M A) (handler : exn -> M A) :
  respects R body -> (forall e, respects R (handler e)) ->
  respects R (try_except body handler).
Proof using R_trans.
  intros Hm Hk st. unfold try_except. specialize (Hm st).
  destruct (body st) as [[e | a] st1]; simpl in *.
  - eapply R_trans; [exact Hm | apply Hk].
  - exact Hm.
Qed.

Lemma respects_for_each {A B} (body : B -> A -> M B) xs :
  (forall acc x, respects R (body acc x)) ->
  forall acc, respects R (for_each body xs acc).
Proof using R_refl R_trans.
  intros Hbody. induction xs as [| x xs IH]; intros acc; simpl.
  - apply respects_ret.
  - apply respects_bind; [apply Hbody | exact IH].
Qed.

End Respects.

Lemma same_heap_refl st : same_heap st st.
Proof. reflexivity. Qed.

Lemma same_heap_trans st1 st2 st3 :
  same_heap st1 st2 -> same_heap st2 st3 -> same_heap st1 st3.
Proof. unfold same_heap. congruence. Qed.

Lemma only_reads_refl st : only_reads st st.
Proof. exists []. split; [now rewrite app_nil_r | constructor]. Qed.

Lemma only_reads_trans st1 st2 st3 :
  only_reads st1 st2 -> only_reads st2 st3 -> only_reads st1 st3.
Proof.
  intros (n1 & E1 & F1) (n2 & E2 & F2). exists (n1 ++ n2). split.
  - now rewrite E2, E1, app_assoc.
  - now apply Forall_app.
Qed.

Lemma api_request_same_heap remote v endpoint body :
  respects same_heap (api_request remote v endpoint body).
Proof. intros st. reflexivity. Qed.

Lemma api_get_only_reads remote endpoint :
  respects only_reads (api_get remote endpoint).
Proof.
  intros st. exists [Call GET endpoint None]. split; [reflexivity |].
  repeat constructor.
Qed.

Lemma py_eq_str_true v s : py_eq_str v s = true -> v = JStr s.
Proof.
  destruct v; simpl; try discriminate.
  intros E. apply String.eqb_eq in E. now subst.
Qed.

Create HintDb tools.

#[local] Hint Unfold
  search_workspace search_space_step search_list_step search_task_step
  get_workspace_hierarchy get_workspace_tasks create_task get_task
  create_task_comment get_task_comments get_workspace_members create_list
  arg_get api_get api_post api_put : tools.

(** Walk through a tool's body, one construct at a time. *)
Ltac walk refl trans prim :=
  repeat first
    [ apply (respects_bind trans); [| intros ?]
    | apply (respects_for_each refl trans); intros ? ?
    | apply (respects_ret refl)
    | apply (respects_raise refl)
    | apply (respects_lift refl)
    | apply (respects_deref refl)
    | apply prim
    | match goal with
      | |- respects _ (if ?b then _ else _) => destruct b
      end
    | progress autounfold with tools ].

Section Frames.

Variable remote : list call -> call -> except json.
Variable py_repr : json -> string.
Variable str_lower : string -> string.

(** X1.  Of all the tools only [update_task] touches the objects of its
    caller: whatever the tool name, the arguments and the answers of the
    remote service, any other tool leaves the heap exactly as it found it. *)
Theorem only_update_task_touches_the_heap tool_name arguments st :
  tool_name <> JStr "update_task" ->
  heap (snd (execute_tool remote py_repr str_lower tool_name arguments st)) = heap st.
Proof.
  intros Hnot. revert st. change (respects same_heap
    (execute_tool remote py_repr str_lower tool_name arguments)).
  unfold execute_tool.
  repeat match goal with
    | |- respects _ (if py_eq_str tool_name ?s then _ else _) =>
        destruct (py_eq_str tool_name s) eqn:?
    end;
    try (exfalso; apply Hnot; now apply py_eq_str_true);
    walk same_heap_refl same_heap_trans api_request_same_heap.
Qed.

(** X2.  The six reading tools never write to the remote service: every
    call they add to the log is a GET without a body, however the run ends. *)
Theorem reading_tools_only_get tn arguments st :
  tn ∈ read_only_tools ->
  exists new,
    log (snd (execute_tool remote py_repr str_lower (JStr tn) arguments st))
    = log st ++ new
    /\ Forall (fun c => call_verb c = GET /\ call_body c = None) new.
Proof.
  intros Hin. revert st. change (respects only_reads
    (execute_tool remote py_repr str_lower (JStr tn) arguments)).
  unfold read_only_tools in Hin.
  repeat (apply elem_of_cons in Hin as [-> | Hin]);
    [.. | now apply elem_of_nil in Hin];
    cbn [execute_tool py_eq_str String.eqb Ascii.eqb Bool.eqb];
    walk only_reads_refl only_reads_trans api_get_only_reads.
Qed.

End Frames.

(** ** Arguments the executor does not check *)

Section Arguments.

Variable remote : list call -> call -> except json.
Variable py_repr : json -> string.
Variable str_lower : string -> string.

(** X3.  The four tools that pass their arguments straight to one remote
    call check nothing locally: whatever keys the argument map holds, each
    issues exactly one call, with [None] standing for every missing
    argument, and returns what the remote answers. *)
Theorem pass_through_tools_send_missing_arguments_as_none arguments st d :
  heap st !! arguments = Some (JDict d) ->
  let arg k := default JNull (d !! k) in
  let run tn := execute_tool remote py_repr str_lower (JStr tn) arguments st in
  let sent c := (remote (log st) c, State (heap st) (log st ++ [c])) in
  run "get_task"
  = sent (Call GET ("task/" +:+ py_str py_repr (arg "task_id")) None)
  /\ run "get_task_comments"
     = sent (Call GET ("task/" +:+ py_str py_repr (arg "task_id") +:+ "/comment") None)
  /\ run "create_task_comment"
     = sent (Call POST ("task/" +:+ py_str py_repr (arg "task_id") +:+ "/comment")
                  (Some (JDict (dict_lit [("comment_text", arg "comment_text")]))))
  /\ run "create_list"
     = sent (Call POST ("space/" +:+ py_str py_repr (arg "space_id") +:+ "/list")
                  (Some (JDict (dict_lit [("name", arg "name")])))).
Proof.
  intros Hargs arg run sent. unfold run, sent, arg.
  repeat split;
    cbn [execute_tool py_eq_str String.eqb Ascii.eqb Bool.eqb];
    unfold arg_get, bind, deref, lift; rewrite Hargs; reflexivity.
Qed.

(** X4.  [create_task] stops at the first required key it misses: without
    [list_id], or with [list_id] but without [name], it raises the
    [KeyError] of that key, issues no remote call and changes nothing. *)
Theorem create_task_missing_key_makes_no_call arguments st d :
  heap st !! arguments = Some (JDict d) ->
  (d !! "list_id" = None ->
   create_task remote py_repr arguments st
   = (inl (Exn KeyError (py_repr (JStr "list_id"))), st))
  /\ (is_Some (d !! "list_id") -> d !! "name" = None ->
      create_task remote py_repr arguments st
      = (inl (Exn KeyError (py_repr (JStr "name"))), st)).
Proof.
  intros Hargs. split.
  - intros Hlist. unfold create_task, bind, deref, lift. rewrite Hargs. simpl.
    now rewrite Hlist.
  - intros [list_id Hlist] Hname.
    unfold create_task, bind, deref, lift. rewrite Hargs. simpl.
    now rewrite Hlist, Hname.
Qed.

(** X5.  [update_task] without a [task_id] raises its [KeyError] before
    anything happens: the argument map is not changed and no remote call is
    issued. *)
Theorem update_task_missing_id_changes_nothing arguments st d :
  heap st !! arguments = Some (JDict d) ->
  d !! "task_id" = None ->
  update_task remote py_repr arguments st
  = (inl (Exn KeyError (py_repr (JStr "task_id"))), st).
Proof.
  intros Hargs Hid. unfold update_task, py_pop, bind, deref. rewrite Hargs. simpl.
  now rewrite Hid.
Qed.


(** X7.  With a truthy [list_id], [get_workspace_tasks] issues exactly one
    remote call, the GET of that list's tasks; it returns the [tasks] member
    of the answer, and passes on the fault of the call or of a missing
    member. *)
Theorem get_workspace_tasks_single_list filters st d list_id :
  heap st !! filters = Some (JDict d) ->
  d !! "list_id" = Some list_id ->
  py_truthy list_id = true ->
  let c := Call GET ("list/" +:+ py_str py_repr list_id +:+ "/task?archived=false")
                None in
  get_workspace_tasks remote py_repr filters st
  = (match remote (log st) c with
     | inr tasks => py_item py_repr tasks "tasks"
     | inl e => inl e
     end,
     State (heap st) (log st ++ [c])).
Proof.
  intros Hargs Hid Htruthy c.
  unfold get_workspace_tasks, bind, deref, lift. rewrite Hargs. simpl.
  rewrite Hid. simpl. rewrite Htruthy.
  unfold api_get, api_request. fold c.
  now destruct (remote (log st) c).
Qed.

End Arguments.

(** ** The health check *)

Section HealthProperties.

Variable remote : list call -> call -> except json.
Variable py_repr : json -> string.

(** X8.  [health_check] never raises and issues exactly one remote call,
    the GET of [user].  It answers with the healthy document exactly when
    that call succeeds and its answer holds [user.username]; in every other
    case -- a failed call, an answer of another shape -- it answers with the
    unhealthy document. *)
Theorem health_check_reports_every_failure st :
  let c := Call GET "user" None in
  exists doc,
    health_check remote py_repr st = (inr doc, State (heap st) (log st ++ [c]))
    /\ (doc = unhealthy_document \/ exists username, doc = healthy_document username)
    /\ (forall username,
          doc = healthy_document username <->
          exists user account,
            remote (log st) c = inr user
            /\ py_item py_repr user "user" = inr account
            /\ py_item py_repr account "username" = inr username).
Proof.
  intros c.
  assert (Hdiff : forall username, unhealthy_document <> healthy_document username).
  { intros username Heq.
    apply (f_equal (fun v => match v with
                             | JDict m => m !! "service"
                             | _ => None
                             end)) in Heq.
    discriminate. }
  assert (Hinj : forall u1 u2, healthy_document u1 = healthy_document u2 -> u1 = u2).
  { intros u1 u2 Heq.
    apply (f_equal (fun v => match v with
                             | JDict m => m !! "user"
                             | _ => None
                             end)) in Heq.
    now injection Heq. }
  unfold health_check, try_except, bind, lift, ret, api_get, api_request.
  fold c. simpl.
  destruct (remote (log st) c) as [e | user] eqn:Huser.
  { eexists. split; [reflexivity |]. split; [now left |].
    intros username. split.
    - intros Heq. now apply Hdiff in Heq.
    - intros (? & ? & ? & _). discriminate. }
  destruct (py_item py_repr user "user") as [e | account] eqn:Haccount.
  { eexists. split; [reflexivity |]. split; [now left |].
    intros username. split.
    - intros Heq. now apply Hdiff in Heq.
    - intros (? & ? & [= <-] & ? & _). congruence. }
  destruct (py_item py_repr account "username") as [e | name] eqn:Hname.
  { eexists. split; [reflexivity |]. split; [now left |].
    intros username. split.
    - intros Heq. now apply Hdiff in Heq.
    - intros (? & ? & [= <-] & ? & ?). congruence. }
  eexists. split; [reflexivity |]. split; [right; eauto |].
  intros username. split.
  - intros Heq. apply Hinj in Heq as <-. eauto.
  - intros (? & ? & [= <-] & ? & ?). congruence.
Qed.

End HealthProperties.

(** ** The fan-out *)

Lemma for_each_ext {A B} (f g : B -> A -> M B) :
  (forall acc x st, f acc x st = g acc x st) ->
  forall xs acc st, for_each f xs acc st = for_each g xs acc st.
Proof.
  intros Hfg. induction xs as [| x xs IH]; intros acc st; simpl.
  - reflexivity.
  - unfold bind. rewrite Hfg.
    destruct (g acc x st) as [[e | acc'] st1]; [reflexivity | apply IH].
Qed.

Lemma bind_unfold {A B} (m : M A) (k : A -> M B) st :
  bind m k st
  = match m st with
    | (inr a, st') => k a st'
    | (inl e, st') => (inl e, st')
    end.
Proof. reflexivity. Qed.

Lemma lift_unfold {A} (r : except A) st : lift r st = (r, st).
Proof. reflexivity. Qed.

Lemma api_get_state remote endpoint st :
  snd (api_get remote endpoint st)
  = State (heap st) (log st ++ [Call GET endpoint None]).
Proof. reflexivity. Qed.

Section FanOut.

Variable remote : list call -> call -> except json.
Variable py_repr : json -> string.
Variable str_lower : string -> string.

(** The loop bodies of [get_workspace_tasks]. *)
#[local] Abbreviation tasks_list_step :=
  (fun (all_tasks : list json) (lst : json) =>
     do lst_id <- lift (py_item py_repr lst "id");
     do tasks <- api_get remote ("list/" +:+ py_str py_repr lst_id +:+ "/task?archived=false");
     do tasks_v <- lift (py_item py_repr tasks "tasks");
     do more <- lift (py_iter tasks_v);
     ret (all_tasks ++ more)).

#[local] Abbreviation tasks_space_step :=
  (fun (all_tasks : list json) (space : json) =>
     do space_id <- lift (py_item py_repr space "id");
     do lists <- api_get remote ("space/" +:+ py_str py_repr space_id +:+ "/list?archived=false");
     do lists_v <- lift (py_item py_repr lists "lists");
     do list_seq <- lift (py_iter lists_v);
     for_each tasks_list_step list_seq all_tasks).

(** Case analysis on every step of a run. *)
Ltac split_run :=
  repeat match goal with
    | |- context [match ?x with _ => _ end] =>
        lazymatch x with
        | for_each _ _ _ _ => fail
        | _ => destruct x eqn:?
        end
    end.

Lemma tasks_list_step_fetches acc lst st :
  tasks_list_step acc lst st = fetch_list_step remote py_repr acc lst st.
Proof.
  unfold fetch_list_step, fetch_tasks, bind, lift, ret.
  split_run; congruence.
Qed.

Lemma fetch_list_step_run acc lst st :
  fetch_list_step remote py_repr acc lst st
  = match fetch_tasks remote py_repr lst st with
    | (inr ts, st1) => (inr (acc ++ ts), st1)
    | (inl e, st1) => (inl e, st1)
    end.
Proof. reflexivity. Qed.

Lemma fetch_space_step_run acc space st :
  fetch_space_step remote py_repr acc space st
  = match fetch_lists remote py_repr space st with
    | (inr ls, st1) =>
        match for_each (fetch_list_step remote py_repr) ls [] st1 with
        | (inr tk, st2) => (inr (acc.1 ++ ls, acc.2 ++ tk), st2)
        | (inl e, st2) => (inl e, st2)
        end
    | (inl e, st1) => (inl e, st1)
    end.
Proof.
  unfold fetch_space_step. rewrite bind_unfold.
  destruct (fetch_lists remote py_repr space st) as [[e | ls] st1]; [reflexivity |].
  now rewrite bind_unfold.
Qed.

Lemma fetch_list_loop_shift list_seq :
  forall acc st,
    for_each (fetch_list_step remote py_repr) list_seq acc st
    = match for_each (fetch_list_step remote py_repr) list_seq [] st with
      | (inr new, st') => (inr (acc ++ new), st')
      | (inl e, st') => (inl e, st')
      end.
Proof.
  induction list_seq as [| lst rest IH]; intros acc st; simpl.
  - unfold ret. now rewrite app_nil_r.
  - rewrite !bind_unfold, !fetch_list_step_run.
    destruct (fetch_tasks remote py_repr lst st) as [[e | ts] st1]; [reflexivity |].
    rewrite (IH (acc ++ ts)), (IH ([] ++ ts)). simpl.
    destruct (for_each (fetch_list_step remote py_repr) rest [] st1)
      as [[e | new] st2]; [reflexivity |].
    now rewrite app_assoc.
Qed.

Lemma tasks_space_step_fetches all_tasks space st :
  tasks_space_step all_tasks space st
  = match fetch_lists remote py_repr space st with
    | (inr list_seq, st1) =>
        for_each (fetch_list_step remote py_repr) list_seq all_tasks st1
    | (inl e, st1) => (inl e, st1)
    end.
Proof.
  unfold fetch_lists. cbv beta.
  rewrite !bind_unfold, !lift_unfold.
  destruct (py_item py_repr space "id") as [e | space_id]; [reflexivity |].
  rewrite !bind_unfold.
  destruct (api_get remote _ st) as [[e | lists] st1]; [reflexivity |].
  rewrite !bind_unfold, !lift_unfold.
  destruct (py_item py_repr lists "lists") as [e | lists_v]; [reflexivity |].
  rewrite !bind_unfold, !lift_unfold.
  destruct (py_iter lists_v) as [e | list_seq]; [reflexivity |].
  apply for_each_ext, tasks_list_step_fetches.
Qed.

Lemma tasks_space_loop space_seq :
  forall found_lists all_tasks st,
    for_each tasks_space_step space_seq all_tasks st
    = match for_each (fetch_space_step remote py_repr) space_seq
                     (found_lists, all_tasks) st with
      | (inr fetched, st') => (inr fetched.2, st')
      | (inl e, st') => (inl e, st')
      end.
Proof.
  induction space_seq as [| space rest IH]; intros fl ft st; simpl.
  - reflexivity.
  - rewrite bind_unfold, tasks_space_step_fetches.
    rewrite bind_unfold, fetch_space_step_run.
    destruct (fetch_lists remote py_repr space st) as [[e | ls] st1];
      [reflexivity |].
    rewrite fetch_list_loop_shift.
    destruct (for_each (fetch_list_step remote py_repr) ls [] st1)
      as [[e | tk] st2]; [reflexivity |].
    simpl. apply IH.
Qed.

(** X9.  Against a remote service that answers the tasks of a list with an
    array, and without a usable [list_id] -- absent, [None], empty, zero --
    [get_workspace_tasks] is the whole fan-out: it issues the fetches of the
    first workspace, its spaces, their lists and their tasks, and returns all
    fetched tasks as one sequence, in fetch order; the first fault of the
    fan-out is the fault of the tool, at the same point. *)
Theorem get_workspace_tasks_fan_out filters st d :
  tasks_are_lists remote py_repr ->
  heap st !! filters = Some (JDict d) ->
  py_truthy (default JNull (d !! "list_id")) = false ->
  get_workspace_tasks remote py_repr filters st
  = match fetch_workspace remote py_repr st with
    | (inr (_, _, tasks), st') => (inr (JList tasks), st')
    | (inl e, st') => (inl e, st')
    end.
Proof using Type.
  clear str_lower.
  intros _ Hargs Hfalsy. unfold get_workspace_tasks.
  rewrite (bind_run (deref filters) _ st (JDict d) st)
    by (unfold deref; now rewrite Hargs).
  rewrite (bind_run (lift (py_get (JDict d) "list_id" JNull)) _ st
             (default JNull (d !! "list_id")) st) by reflexivity.
  rewrite Hfalsy. unfold fetch_workspace.
  rewrite !bind_unfold.
  destruct (api_get remote "team" st) as [[e | teams] st1]; [reflexivity |].
  rewrite !bind_unfold, !lift_unfold.
  destruct (first_team py_repr teams) as [e | team]; [reflexivity |].
  rewrite !bind_unfold, !lift_unfold.
  destruct (py_item py_repr team "id") as [e | team_id]; [reflexivity |].
  rewrite !bind_unfold.
  destruct (api_get remote _ st1) as [[e | spaces] st2]; [reflexivity |].
  rewrite !bind_unfold, !lift_unfold.
  destruct (py_item py_repr spaces "spaces") as [e | all_spaces]; [reflexivity |].
  rewrite !bind_unfold, !lift_unfold.
  destruct (py_iter all_spaces) as [e | space_seq]; [reflexivity |].
  rewrite !bind_unfold, (tasks_space_loop space_seq [] [] st2).
  destruct (for_each (fetch_space_step remote py_repr) space_seq ([], []) st2)
    as [[e | fetched] st3]; reflexivity.
Qed.

End FanOut.

(** ** What a successful fan-out costs and returns *)

Section FanOutResults.

Variable remote : list call -> call -> except json.
Variable py_repr : json -> string.
Variable str_lower : string -> string.

(** The loop body of [get_workspace_hierarchy]. *)
#[local] Abbreviation hierarchy_step :=
  (fun (entries : list json) (space : json) =>
     do space_id <- lift (py_item py_repr space "id");
     do space_name <- lift (py_item py_repr space "name");
     do space_id' <- lift (py_item py_repr space "id");
     do lists <- api_get remote ("space/" +:+ py_str py_repr space_id' +:+ "/list?archived=false");
     do lists_v <- lift (py_item py_repr lists "lists");
     ret (entries ++ [JDict (dict_lit [("id", space_id);
                                       ("name", space_name);
                                       ("lists", lists_v)])])).

Lemma api_get_run endpoint st r st' :
  api_get remote endpoint st = (r, st') ->
  remote (log st) (Call GET endpoint None) = r
  /\ st' = State (heap st) (log st ++ [Call GET endpoint None]).
Proof. unfold api_get, api_request. intros [= <- <-]. now split. Qed.

Lemma hierarchy_loop space_seq :
  forall entries st result st',
    for_each hierarchy_step space_seq entries st = (inr result, st') ->
    exists new,
      result = entries ++ new
      /\ hierarchy_entries remote py_repr (log st) space_seq new (log st')
      /\ heap st' = heap st.
Proof using Type.
  clear str_lower.
  induction space_seq as [| space rest IH]; intros entries st result st' Hrun;
    simpl in Hrun.
  - apply ret_inv in Hrun as [<- ->]. exists []. rewrite app_nil_r.
    repeat split. constructor.
  - apply bind_inr_inv in Hrun as (entries1 & st1 & Hstep & Hrest).
    apply bind_inr_inv in Hstep as (space_id & ? & [Hid ->]%lift_inr_inv & Hstep).
    apply bind_inr_inv in Hstep as (space_name & ? & [Hname ->]%lift_inr_inv & Hstep).
    apply bind_inr_inv in Hstep as (space_id' & ? & [Hid' ->]%lift_inr_inv & Hstep).
    apply bind_inr_inv in Hstep as (lists & st2 & Hget & Hstep).
    apply bind_inr_inv in Hstep as (lists_v & ? & [Hlists ->]%lift_inr_inv & Hstep).
    apply ret_inv in Hstep as [<- ->].
    apply api_get_run in Hget as [Hget ->].
    rewrite Hid in Hid'. injection Hid' as <-.
    destruct (IH _ _ _ _ Hrest) as (new & -> & Hentries & Hheap).
    eexists (_ :: new). split; [now rewrite <- app_assoc |].
    split; [| exact Hheap].
    econstructor; eassumption.
Qed.

Lemma hierarchy_loop_run history space_seq new history' :
  hierarchy_entries remote py_repr history space_seq new history' ->
  forall entries heap0,
    for_each hierarchy_step space_seq entries (State heap0 history)
    = (inr (entries ++ new), State heap0 history').
Proof using Type.
  clear str_lower.
  induction 1 as [history
                 | history space rest space_id space_name lists lists_v new history'
                     Hid Hname Hget Hlists _ IH];
    intros entries heap0; cbn [for_each].
  - unfold ret. now rewrite app_nil_r.
  - rewrite bind_unfold.
    rewrite !bind_unfold, !lift_unfold, Hid.
    rewrite !bind_unfold, !lift_unfold, Hname.
    rewrite !bind_unfold, !lift_unfold.
    rewrite !bind_unfold. unfold api_get at 1, api_request at 1. cbn [log heap].
    rewrite Hget.
    rewrite !bind_unfold, !lift_unfold, Hlists. unfold ret at 1.
    rewrite IH. now rewrite <- app_assoc.
Qed.

(** X10.  [get_workspace_hierarchy] succeeds exactly when GET [team] answers
    with a first workspace that has an [id], the GET of that workspace's
    spaces answers with a [spaces] member that can be walked, and every
    space, in the order of that answer, has an [id] and a [name] and a lists
    answer with a [lists] member.  Its result is then
    [{workspace, spaces}]: the first workspace as it was answered, and one
    entry per space, in that order, holding the space's [id] and [name] and
    the [lists] member answered for that space.  The calls are those two GETs
    and then one per space, and the heap is left alone. *)
Theorem get_workspace_hierarchy_one_entry_per_space st result st' :
  get_workspace_hierarchy remote py_repr st = (inr result, st') <->
  exists teams team team_id spaces all_spaces space_seq entries,
    remote (log st) (Call GET "team" None) = inr teams
    /\ first_team py_repr teams = inr team
    /\ py_item py_repr team "id" = inr team_id
    /\ remote (log st ++ [Call GET "team" None])
              (Call GET ("team/" +:+ py_str py_repr team_id +:+ "/space?archived=false")
                    None)
       = inr spaces
    /\ py_item py_repr spaces "spaces" = inr all_spaces
    /\ py_iter all_spaces = inr space_seq
    /\ hierarchy_entries remote py_repr
         (log st ++ [Call GET "team" None;
                     Call GET ("team/" +:+ py_str py_repr team_id +:+ "/space?archived=false")
                          None])
         space_seq entries (log st')
    /\ result = JDict (dict_lit [("workspace", team); ("spaces", JList entries)])
    /\ heap st' = heap st.
Proof using Type.
  clear str_lower. split.
  - intros Hrun. unfold get_workspace_hierarchy in Hrun.
    apply bind_inr_inv in Hrun as (teams & st1 & Hteams & Hrun).
    apply bind_inr_inv in Hrun as (team & ? & [Hteam ->]%lift_inr_inv & Hrun).
    apply bind_inr_inv in Hrun as (team_id & ? & [Hid ->]%lift_inr_inv & Hrun).
    apply bind_inr_inv in Hrun as (spaces & st2 & Hspaces & Hrun).
    apply bind_inr_inv in Hrun as (workspace & ? & [Hworkspace ->]%lift_inr_inv & Hrun).
    apply bind_inr_inv in Hrun as (all_spaces & ? & [Hall ->]%lift_inr_inv & Hrun).
    apply bind_inr_inv in Hrun as (space_seq & ? & [Hseq ->]%lift_inr_inv & Hrun).
    apply bind_inr_inv in Hrun as (entries & st3 & Hloop & Hrun).
    apply ret_inv in Hrun as [<- ->].
    apply api_get_run in Hteams as [Hteams ->].
    apply api_get_run in Hspaces as [Hspaces ->].
    apply hierarchy_loop in Hloop as (new & -> & Hentries & Hheap).
    rewrite Hteam in Hworkspace. injection Hworkspace as <-.
    cbn [log heap] in *. rewrite <- app_assoc in Hentries.
    exists teams, team, team_id, spaces, all_spaces, space_seq, new.
    repeat split; assumption.
  - intros (teams & team & team_id & spaces & all_spaces & space_seq & entries
            & Hteams & Hteam & Hid & Hspaces & Hall & Hseq & Hentries & -> & Hheap).
    destruct st' as [heap' log']. cbn [log heap] in *. subst heap'.
    unfold get_workspace_hierarchy.
    rewrite bind_unfold. unfold api_get at 1, api_request at 1. rewrite Hteams.
    rewrite bind_unfold, lift_unfold, Hteam.
    rewrite bind_unfold, lift_unfold, Hid.
    rewrite bind_unfold. unfold api_get at 1, api_request at 1. cbn [log heap].
    rewrite Hspaces.
    rewrite bind_unfold, lift_unfold.
    rewrite bind_unfold, lift_unfold, Hall.
    rewrite bind_unfold, lift_unfold, Hseq.
    rewrite bind_unfold. rewrite <- app_assoc.
    rewrite (hierarchy_loop_run _ _ _ _ Hentries). reflexivity.
Qed.

Lemma fetch_list_loop_cost list_seq :
  forall acc st fetched st',
    for_each (fetch_list_step remote py_repr) list_seq acc st = (inr fetched, st') ->
    length (log st') = (length (log st) + length list_seq)%nat.
Proof using Type.
  clear str_lower.
  induction list_seq as [| lst rest IH]; intros acc st fetched st' Hrun;
    simpl in Hrun.
  - apply ret_inv in Hrun as [_ ->]. simpl. lia.
  - apply bind_inr_inv in Hrun as (acc1 & st1 & Hstep & Hrest).
    unfold fetch_list_step, fetch_tasks in Hstep.
    apply bind_inr_inv in Hstep as (ts & st2 & Hts & Hstep).
    apply ret_inv in Hstep as [<- ->].
    apply bind_inr_inv in Hts as (list_id & ? & [_ ->]%lift_inr_inv & Hts).
    apply bind_inr_inv in Hts as (tasks & st3 & Hget & Hts).
    apply bind_inr_inv in Hts as (tasks_v & ? & [_ ->]%lift_inr_inv & Hts).
    apply lift_inr_inv in Hts as [_ ->].
    apply api_get_run in Hget as [_ ->].
    rewrite (IH _ _ _ _ Hrest). simpl. rewrite length_app. simpl. lia.
Qed.

Lemma fetch_space_loop_cost space_seq :
  forall acc st fetched st',
    for_each (fetch_space_step remote py_repr) space_seq acc st = (inr fetched, st') ->
    (length (log st') + length acc.1
     = length (log st) + length space_seq + length fetched.1)%nat.
Proof using Type.
  clear str_lower.
  induction space_seq as [| space rest IH]; intros acc st fetched st' Hrun;
    simpl in Hrun.
  - apply ret_inv in Hrun as [<- ->]. simpl. lia.
  - apply bind_inr_inv in Hrun as (acc1 & st1 & Hstep & Hrest).
    unfold fetch_space_step, fetch_lists in Hstep.
    apply bind_inr_inv in Hstep as (ls & st2 & Hls & Hstep).
    apply bind_inr_inv in Hstep as (tk & st3 & Htk & Hstep).
    apply ret_inv in Hstep as [<- ->].
    apply bind_inr_inv in Hls as (space_id & ? & [_ ->]%lift_inr_inv & Hls).
    apply bind_inr_inv in Hls as (lists & st4 & Hget & Hls).
    apply bind_inr_inv in Hls as (lists_v & ? & [_ ->]%lift_inr_inv & Hls).
    apply lift_inr_inv in Hls as [_ ->].
    apply api_get_run in Hget as [_ ->].
    apply fetch_list_loop_cost in Htk.
    apply IH in Hrest. simpl in *. rewrite ?length_app in *. simpl in *. lia.
Qed.

Lemma fetch_workspace_cost st all_spaces lists tasks st' :
  fetch_workspace remote py_repr st = (inr (all_spaces, lists, tasks), st') ->
  exists space_seq,
    py_iter all_spaces = inr space_seq
    /\ length (log st')
       = (length (log st) + 2 + length space_seq + length lists)%nat.
Proof using Type.
  clear str_lower.
  intros Hfetch. unfold fetch_workspace in Hfetch.
  apply bind_inr_inv in Hfetch as (teams & st1 & Hteams & Hfetch).
  apply bind_inr_inv in Hfetch as (team & ? & [_ ->]%lift_inr_inv & Hfetch).
  apply bind_inr_inv in Hfetch as (team_id & ? & [_ ->]%lift_inr_inv & Hfetch).
  apply bind_inr_inv in Hfetch as (spaces & st2 & Hspaces & Hfetch).
  apply bind_inr_inv in Hfetch as (sv & ? & [_ ->]%lift_inr_inv & Hfetch).
  apply bind_inr_inv in Hfetch as (space_seq & ? & [Hseq ->]%lift_inr_inv & Hfetch).
  apply bind_inr_inv in Hfetch as (fetched & st3 & Hloop & Hfetch).
  apply ret_inv in Hfetch as [Hres ->].
  injection Hres as -> <- <-.
  apply api_get_run in Hteams as [_ ->].
  apply api_get_run in Hspaces as [_ ->].
  apply fetch_space_loop_cost in Hloop.
  exists space_seq. split; [exact Hseq |].
  simpl in Hloop. rewrite !length_app in Hloop. simpl in Hloop. lia.
Qed.

Lemma search_workspace_run q st all_spaces lists tasks st' :
  fetch_workspace remote py_repr st = (inr (all_spaces, lists, tasks), st') ->
  Forall has_name lists ->
  Forall has_name tasks ->
  search_workspace remote py_repr str_lower (JStr q) st
  = (inr (JDict (dict_lit
       [("tasks", JList (filter (fun doc => name_contains_ci str_lower q doc = true) tasks));
        ("lists", JList (filter (fun doc => name_contains_ci str_lower q doc = true) lists));
        ("spaces", all_spaces)])), st').
Proof.
  intros Hfetch Hlists Htasks. unfold fetch_workspace in Hfetch.
  apply bind_inr_inv in Hfetch as (teams & st1 & Hteams & Hfetch).
  apply bind_inr_inv in Hfetch as (team & ? & [Hteam ->]%lift_inr_inv & Hfetch).
  apply bind_inr_inv in Hfetch as (team_id & ? & [Hid ->]%lift_inr_inv & Hfetch).
  apply bind_inr_inv in Hfetch as (spaces & st2 & Hspaces & Hfetch).
  apply bind_inr_inv in Hfetch as (sv & ? & [Hsv ->]%lift_inr_inv & Hfetch).
  apply bind_inr_inv in Hfetch as (space_seq & ? & [Hseq ->]%lift_inr_inv & Hfetch).
  apply bind_inr_inv in Hfetch as (fetched & st3 & Hloop & Hfetch).
  apply ret_inv in Hfetch as [Hres ->].
  injection Hres as -> <- <-.
  destruct (search_space_loop remote py_repr str_lower q _ _ _ _ _ Hloop)
    as (nl & nt & Hv & Hsearch).
  rewrite Hv in Hlists, Htasks |- *. simpl in Hlists, Htasks |- *.
  unfold search_workspace.
  erewrite bind_run by exact Hteams.
  erewrite bind_run by (unfold lift; now rewrite Hteam).
  erewrite bind_run by (unfold lift; now rewrite Hid).
  erewrite bind_run by exact Hspaces.
  erewrite bind_run by (unfold lift; now rewrite Hsv).
  erewrite bind_run by (unfold lift; now rewrite Hseq).
  erewrite bind_run by (now apply Hsearch).
  reflexivity.
Qed.

(** X11.  A successful search costs exactly two remote calls, plus one per
    space, plus one per list: the number of calls grows with the size of the
    workspace and does not depend on the query or on how many names match. *)
Theorem search_workspace_call_count q st all_spaces lists tasks st' :
  fetch_workspace remote py_repr st = (inr (all_spaces, lists, tasks), st') ->
  Forall has_name lists ->
  Forall has_name tasks ->
  exists space_seq,
    py_iter all_spaces = inr space_seq
    /\ length (log (snd (search_workspace remote py_repr str_lower (JStr q) st)))
       = (length (log st) + 2 + length space_seq + length lists)%nat.
Proof.
  intros Hfetch Hlists Htasks.
  rewrite (search_workspace_run q _ _ _ _ _ Hfetch Hlists Htasks). simpl.
  now apply fetch_workspace_cost in Hfetch.
Qed.

Lemma is_substring_empty s : is_substring "" s = true.
Proof. now destruct s. Qed.

(** X12.  The empty query matches every name: a search for [""] returns
    every fetched task and every fetched list, in fetch order ([str.lower]
    maps the empty string to itself). *)
Theorem search_workspace_empty_query_returns_all st all_spaces lists tasks st' :
  str_lower "" = "" ->
  fetch_workspace remote py_repr st = (inr (all_spaces, lists, tasks), st') ->
  Forall has_name lists ->
  Forall has_name tasks ->
  search_workspace remote py_repr str_lower (JStr "") st
  = (inr (JDict (dict_lit [("tasks", JList tasks);
                           ("lists", JList lists);
                           ("spaces", all_spaces)])), st').
Proof.
  intros Hlower Hfetch Hlists Htasks.
  rewrite (search_workspace_run "" _ _ _ _ _ Hfetch Hlists Htasks).
  assert (Hall : forall docs, Forall has_name docs ->
            filter (fun doc => name_contains_ci str_lower "" doc = true) docs = docs).
  { intros docs Hdocs. induction Hdocs as [| doc docs Hdoc _ IH].
    - apply filter_nil.
    - rewrite filter_cons, IH. destruct Hdoc as (d & n & -> & Hn).
      unfold name_contains_ci. rewrite Hn, Hlower, is_substring_empty.
      now case_decide. }
  now rewrite !Hall.
Qed.

(** X13.  On an account without a workspace -- GET [team] answers with an
    empty [teams] list -- the tools that start from the first workspace
    fault with [IndexError] right after that one call. *)
Theorem no_workspace_is_an_index_error query st teams :
  remote (log st) (Call GET "team" None) = inr teams ->
  py_item py_repr teams "teams" = inr (JList []) ->
  let fault : except json * state :=
    (inl (Exn IndexError "list index out of range"),
     State (heap st) (log st ++ [Call GET "team" None])) in
  search_workspace remote py_repr str_lower query st = fault
  /\ get_workspace_hierarchy remote py_repr st = fault
  /\ get_workspace_members remote py_repr st = fault.
Proof.
  intros Hteams Hempty fault.
  assert (Hfirst : first_team py_repr teams
                   = inl (Exn IndexError "list index out of range"))
    by (unfold first_team; now rewrite Hempty).
  repeat split.
  - unfold search_workspace. rewrite bind_unfold.
    unfold api_get, api_request. simpl. rewrite Hteams.
    rewrite bind_unfold, lift_unfold, Hfirst. reflexivity.
  - unfold get_workspace_hierarchy. rewrite bind_unfold.
    unfold api_get, api_request. simpl. rewrite Hteams.
    rewrite bind_unfold, lift_unfold, Hfirst. reflexivity.
  - unfold get_workspace_members. rewrite bind_unfold.
    unfold api_get, api_request. simpl. rewrite Hteams.
    rewrite bind_unfold, lift_unfold, Hfirst. reflexivity.
Qed.

End FanOutResults.

(** ** Tool calls through the endpoint *)

Section ToolCalls.

Variable remote : list call -> call -> except json.
Variable py_repr : json -> string.
Variable str_lower : string -> string.
Variable json_dumps : json -> string.

Lemma tools_call_run request st :
  MCPRequest.method request = "tools/call" ->
  let tool_name := default JNull (params_or_empty request !! "name") in
  let arguments := default (JDict ∅) (params_or_empty request !! "arguments") in
  mcp_endpoint remote py_repr str_lower json_dumps request st
  = match execute_tool remote py_repr str_lower tool_name (length (heap st))
                       (State (heap st ++ [arguments]) (log st)) with
    | (inr tool_result, st') =>
        (inr (success_response (MCPRequest.id request)
                (tool_call_result json_dumps tool_result)), st')
    | (inl e, st') => (inr (error_response (MCPRequest.id request) e), st')
    end.
Proof.
  intros Hmethod tool_name arguments.
  rewrite mcp_endpoint_run. unfold mcp_route. rewrite Hmethod.
  cbn [String.eqb Ascii.eqb Bool.eqb].
  fold tool_name arguments. rewrite bind_unfold. unfold alloc at 1.
  cbv beta iota. rewrite bind_unfold.
  destruct (execute_tool remote py_repr str_lower tool_name (length (heap st))
              (State (heap st ++ [arguments]) (log st)))
    as [[e | tool_result] st']; reflexivity.
Qed.

(** X14.  A remote failure during [get_task] does not take the server
    down: the endpoint answers with the error whose message is the text of
    the remote fault, having issued the one GET, and a request that follows
    is served as usual. *)
Theorem remote_failure_surfaces_and_server_goes_on v id task_id st e v' id' :
  let arguments := JDict (dict_lit [("task_id", task_id)]) in
  let request :=
    MCPRequest.mk v id "tools/call"
      (Some (dict_lit [("name", JStr "get_task"); ("arguments", arguments)])) in
  let c := Call GET ("task/" +:+ py_str py_repr task_id) None in
  let st' := State (heap st ++ [arguments]) (log st ++ [c]) in
  remote (log st) c = inl e ->
  mcp_endpoint remote py_repr str_lower json_dumps request st
  = (inr (MCPResponse.mk "2.0" id None
            (Some (dict_lit [("code", JInt (-32603));
                             ("message", JStr (exn_str e))]))), st')
  /\ mcp_endpoint remote py_repr str_lower json_dumps
       (MCPRequest.mk v' id' "tools/list" None) st'
     = (inr (MCPResponse.mk "2.0" id' (Some tools_list_result) None), st').
Proof.
  intros arguments request c st' Hfail. split; [| reflexivity].
  rewrite tools_call_run by reflexivity.
  change (default JNull (params_or_empty request !! "name")) with (JStr "get_task").
  change (default (JDict ∅) (params_or_empty request !! "arguments")) with arguments.
  cbn [execute_tool py_eq_str String.eqb Ascii.eqb Bool.eqb].
  assert (Harg : arg_get (length (heap st)) "task_id"
                   (State (heap st ++ [arguments]) (log st))
                 = (inr task_id, State (heap st ++ [arguments]) (log st))).
  { unfold arg_get. rewrite bind_unfold. unfold deref. cbn [heap].
    rewrite lookup_app_r by reflexivity. rewrite Nat.sub_diag. reflexivity. }
  rewrite (bind_run _ _ _ _ _ Harg).
  unfold get_task, api_get, api_request. cbn [log heap]. fold c.
  now rewrite Hfail.
Qed.

End ToolCalls.

(** ** Requests that stay local *)

Section LocalRequests.

Variable remote : list call -> call -> except json.
Variable py_repr : json -> string.
Variable str_lower : string -> string.
Variable json_dumps : json -> string.

(** X15.  Only [tools/call] reaches the remote service or the heap: a
    request with any other method -- [initialize], [tools/list] or an
    unknown one -- is answered without a remote call and leaves the state
    as it was. *)
Theorem only_tools_call_reaches_the_remote request st :
  MCPRequest.method request <> "tools/call" ->
  snd (mcp_endpoint remote py_repr str_lower json_dumps request st) = st.
Proof.
  intros Hmethod. rewrite mcp_endpoint_run. unfold mcp_route.
  destruct (String.eqb (MCPRequest.method request) "initialize"); [reflexivity |].
  destruct (String.eqb (MCPRequest.method request) "tools/list"); [reflexivity |].
  destruct (String.eqb_spec (MCPRequest.method request) "tools/call");
    [contradiction | reflexivity].
Qed.

End LocalRequests.

(** ** Further instances on the small workspace *)

Example health_check_on_the_small_workspace :
  health_check demo_remote demo_repr empty_state
  = (inr unhealthy_document, State [] [Call GET "user" None])
  /\ health_check demo_remote_with_user demo_repr empty_state
     = (inr (healthy_document (JStr "ann")), State [] [Call GET "user" None]).
Proof. split; vm_compute; reflexivity. Qed.

Lemma only_update_task_touches_the_heap_witness :
  heap (snd (execute_tool demo_remote demo_repr ascii_lower (JStr "create_task")
                          0%nat (state_with (JDict demo_create_args))))
  = [JDict demo_create_args].
Proof.
  apply (only_update_task_touches_the_heap demo_remote demo_repr ascii_lower
           (JStr "create_task") 0%nat (state_with (JDict demo_create_args))).
  discriminate.
Defined.

Lemma reading_tools_only_get_witness :
  exists new,
    log (snd (execute_tool demo_remote demo_repr ascii_lower (JStr "search_workspace")
                           0%nat (state_with (JDict (dict_lit [("query", JStr "test")])))))
    = log (state_with (JDict (dict_lit [("query", JStr "test")]))) ++ new
    /\ Forall (fun c => call_verb c = GET /\ call_body c = None) new.
Proof.
  apply (reading_tools_only_get demo_remote demo_repr ascii_lower "search_workspace").
  unfold read_only_tools. apply elem_of_cons. now left.
Defined.

Lemma pass_through_tools_send_missing_arguments_as_none_witness :
  execute_tool demo_remote demo_repr ascii_lower (JStr "get_task") 0%nat
               (state_with (JDict ∅))
  = (inl (Exn RequestException "404 Client Error: Not Found for url: task/None"),
     State [JDict ∅] [Call GET "task/None" None]).
Proof.
  rewrite (proj1 (pass_through_tools_send_missing_arguments_as_none
                    demo_remote demo_repr ascii_lower 0%nat
                    (state_with (JDict ∅)) ∅ eq_refl)).
  reflexivity.
Defined.

Lemma create_task_missing_key_makes_no_call_witness :
  create_task demo_remote demo_repr 0%nat
              (state_with (JDict (dict_lit [("name", JStr "Test")])))
  = (inl (Exn KeyError "'list_id'"),
     state_with (JDict (dict_lit [("name", JStr "Test")]))).
Proof.
  apply (proj1 (create_task_missing_key_makes_no_call demo_remote demo_repr 0%nat
                  (state_with (JDict (dict_lit [("name", JStr "Test")])))
                  (dict_lit [("name", JStr "Test")]) eq_refl)).
  reflexivity.
Defined.

Lemma update_task_missing_id_changes_nothing_witness :
  update_task demo_remote demo_repr 0%nat
              (state_with (JDict (dict_lit [("name", JStr "New")])))
  = (inl (Exn KeyError "'task_id'"),
     state_with (JDict (dict_lit [("name", JStr "New")]))).
Proof.
  apply (update_task_missing_id_changes_nothing demo_remote demo_repr 0%nat
           (state_with (JDict (dict_lit [("name", JStr "New")])))
           (dict_lit [("name", JStr "New")]) eq_refl eq_refl).
Defined.


Lemma get_workspace_tasks_single_list_witness :
  get_workspace_tasks demo_remote demo_repr 0%nat
                      (state_with (JDict (dict_lit [("list_id", JStr "L2")])))
  = (inr (JList [named "K3" "attest release"]),
     State [JDict (dict_lit [("list_id", JStr "L2")])]
           [Call GET "list/L2/task?archived=false" None]).
Proof.
  rewrite (get_workspace_tasks_single_list demo_remote demo_repr 0%nat
             (state_with (JDict (dict_lit [("list_id", JStr "L2")])))
             (dict_lit [("list_id", JStr "L2")]) (JStr "L2")
             eq_refl eq_refl eq_refl).
  reflexivity.
Defined.

Lemma get_workspace_tasks_fan_out_witness :
  get_workspace_tasks demo_remote demo_repr 0%nat
                      (state_with (JDict (dict_lit [("list_id", JStr "")])))
  = (inr (JList demo_tasks),
     State [JDict (dict_lit [("list_id", JStr "")])] demo_fan_out).
Proof.
  assert (Hlists : tasks_are_lists demo_remote demo_repr).
  { intros history c doc tasks_v Hdoc Htasks. unfold demo_remote in Hdoc.
    destruct (call_verb c);
      repeat match type of Hdoc with
        | (if ?b then _ else _) = _ => destruct b
        end;
      try discriminate; injection Hdoc as <-;
      vm_compute in Htasks; try discriminate;
      injection Htasks as <-; eauto. }
  rewrite (get_workspace_tasks_fan_out demo_remote demo_repr 0%nat
             (state_with (JDict (dict_lit [("list_id", JStr "")])))
             (dict_lit [("list_id", JStr "")]) Hlists eq_refl eq_refl).
  reflexivity.
Defined.

Lemma get_workspace_hierarchy_one_entry_per_space_witness :
  get_workspace_hierarchy demo_remote demo_repr empty_state
  = (inr (JDict (dict_lit
       [("workspace", demo_team);
        ("spaces",
         JList [JDict (dict_lit [("id", JStr "S1"); ("name", JStr "Dev");
                                 ("lists", JList demo_lists)]);
                JDict (dict_lit [("id", JStr "S2"); ("name", JStr "Ops");
                                 ("lists", JList [])])])])),
     State [] [Call GET "team" None;
               Call GET "team/T1/space?archived=false" None;
               Call GET "space/S1/list?archived=false" None;
               Call GET "space/S2/list?archived=false" None]).
Proof.
  apply (proj2 (get_workspace_hierarchy_one_entry_per_space demo_remote demo_repr
                  empty_state _ _)).
  exists (JDict (dict_lit [("teams", JList [demo_team])])), demo_team, (JStr "T1"),
         (JDict (dict_lit [("spaces", demo_spaces)])), demo_spaces,
         [named "S1" "Dev"; named "S2" "Ops"].
  eexists.
  repeat split; try reflexivity.
  eapply (hierarchy_space demo_remote demo_repr _ (named "S1" "Dev") _
            (JStr "S1") (JStr "Dev")
            (JDict (dict_lit [("lists", JList demo_lists)])) (JList demo_lists));
    try reflexivity.
  eapply (hierarchy_space demo_remote demo_repr _ (named "S2" "Ops") _
            (JStr "S2") (JStr "Ops")
            (JDict (dict_lit [("lists", JList [])])) (JList []));
    try reflexivity.
  apply hierarchy_done.
Defined.

Lemma search_workspace_call_count_witness :
  exists space_seq,
    py_iter demo_spaces = inr space_seq
    /\ length (log (snd (search_workspace demo_remote demo_repr ascii_lower
                                         (JStr "test") empty_state)))
       = (length (log empty_state) + 2 + length space_seq + length demo_lists)%nat.
Proof.
  assert (Hnamed : forall i n, has_name (named i n)).
  { intros i n. eexists _, n. split; reflexivity. }
  apply (search_workspace_call_count demo_remote demo_repr ascii_lower "test"
           empty_state demo_spaces demo_lists demo_tasks (State [] demo_fan_out)
           eq_refl
           ltac:(repeat constructor; apply Hnamed)
           ltac:(repeat constructor; apply Hnamed)).
Defined.

Lemma search_workspace_empty_query_returns_all_witness :
  search_workspace demo_remote demo_repr ascii_lower (JStr "") empty_state
  = (inr (JDict (dict_lit [("tasks", JList demo_tasks);
                           ("lists", JList demo_lists);
                           ("spaces", demo_spaces)])),
     State [] demo_fan_out).
Proof.
  assert (Hnamed : forall i n, has_name (named i n)).
  { intros i n. eexists _, n. split; reflexivity. }
  apply (search_workspace_empty_query_returns_all demo_remote demo_repr ascii_lower
           empty_state demo_spaces demo_lists demo_tasks (State [] demo_fan_out)
           eq_refl eq_refl
           ltac:(repeat constructor; apply Hnamed)
           ltac:(repeat constructor; apply Hnamed)).
Defined.

Lemma no_workspace_is_an_index_error_witness :
  get_workspace_members no_workspace_remote demo_repr empty_state
  = (inl (Exn IndexError "list index out of range"),
     State [] [Call GET "team" None]).
Proof.
  apply (proj2 (proj2 (no_workspace_is_an_index_error
                         no_workspace_remote demo_repr ascii_lower JNull empty_state
                         (JDict (dict_lit [("teams", JList [])]))
                         eq_refl eq_refl))).
Defined.

Lemma remote_failure_surfaces_and_server_goes_on_witness :
  demo_endpoint (tool_call (Some 6) "get_task" [("task_id", JStr "nope")]) empty_state
  = (inr (MCPResponse.mk "2.0" (Some 6) None
            (Some (dict_lit
               [("code", JInt (-32603));
                ("message", JStr "404 Client Error: Not Found for url: task/nope")]))),
     State [JDict (dict_lit [("task_id", JStr "nope")])] [Call GET "task/nope" None]).
Proof.
  apply (proj1 (remote_failure_surfaces_and_server_goes_on
                  demo_remote demo_repr ascii_lower demo_dumps
                  "2.0" (Some 6) (JStr "nope") empty_state
                  (Exn RequestException "404 Client Error: Not Found for url: task/nope")
                  "2.0" None eq_refl)).
Defined.

Lemma only_tools_call_reaches_the_remote_witness :
  snd (demo_endpoint (MCPRequest.mk "2.0" (Some 1) "ping" None) empty_state)
  = empty_state.
Proof.
  apply (only_tools_call_reaches_the_remote demo_remote demo_repr ascii_lower demo_dumps
           (MCPRequest.mk "2.0" (Some 1) "ping" None) empty_state).
  discriminate.
Defined.
